(** * vscode-solidity: the solhint adapter and the diagnostic pipeline

    A shallow embedding of
      - [src/linter/solhint.ts], first document: [SolhintService] and
        [ValidationConfig] (module [Solhint]);
      - [src/server.ts]: linter selection with the legacy [enabledSolium]
        flag (module [Server]);
      - [src/linter/solhint.ts], second document: the language server with
        the compile-diagnostic cache, the promise chains of
        [validateCompilation] and [validateAllDocuments] (module
        [Validation]).

    JavaScript objects used as dictionaries are [gmap string _]; module-level
    [let] variables and the static members of [ValidationConfig] are fields
    of an explicit state; a promise that is still pending is an entry of the
    state, and its [then] callbacks run when an event settles it. *)

From Stdlib Require Import ZArith.
From stdpp Require Import gmap strings list fin_maps pretty.

Local Open Scope Z_scope.
Local Open Scope string_scope.
Local Open Scope list_scope.

(** ** JavaScript values, as far as rule configurations need them *)

#[warnings="-register-all"]
Inductive JsVal :=
| VUndefined
| VNull
| VBool (b : bool)
| VNum (n : Z)
| VStr (s : string)
| VArr (l : list JsVal)
| VObj (fields : list (string * JsVal)).

(** ToBoolean: [undefined], [null], [false], [0] and [''] are falsy. *)
Definition truthy (v : JsVal) : bool :=
  match v with
  | VUndefined | VNull | VBool false | VNum 0 | VStr "" => false
  | _ => true
  end.

(** Own enumerable properties of ToObject(v), as [Object.assign] reads them
    from a source: the fields of an object, the indices of an array, the
    characters of a string; wrappers of booleans and numbers have none, and
    [null] and [undefined] sources are skipped. *)
Definition own_props (v : JsVal) : list (string * JsVal) :=
  match v with
  | VObj fields => fields
  | VArr l => imap (fun i x => (pretty i, x)) l
  | VStr s => imap (fun i c => (pretty i, VStr (String c ""))) (String.list_ascii_of_string s)
  | _ => []
  end.

(** [Object.assign(target, ...sources)]: the sources are copied into the
    target from left to right, a later source overwriting an earlier one and
    the target. The result is the target object itself, mutated. *)
Definition Object_assign (target : gmap string JsVal) (sources : list JsVal)
  : gmap string JsVal :=
  fold_left (fun t s => list_to_map (own_props s) ∪ t) sources target.

(** [v.rules]: a TypeError ([None]) on [null] and [undefined], the field of
    an object, [undefined] on every other value. *)
Definition get_rules (v : JsVal) : option JsVal :=
  match v with
  | VUndefined | VNull => None
  | VObj fields => Some (default VUndefined (list_to_map (M := gmap string JsVal) fields !! "rules"))
  | _ => Some VUndefined
  end.

(** ** Diagnostics (vscode-languageserver) *)

Inductive Severity := Error | Warning | Information | Hint.

Record Position := { line : Z; character : Z }.
Record Range := { start : Position; end_ : Position }.
Record Diagnostic := { message : string; severity : Severity; range : Range }.

(** A JavaScript value that is an array of diagnostics, [None] standing for
    [null] or [undefined]. *)
Abbreviation DiagArr := (option (list Diagnostic)).

(** A completion of a call that can throw. *)
Inductive Completion (A : Type) :=
| Returned (a : A)
| Thrown.
Arguments Returned {A} a.
Arguments Thrown {A}.

Module Solhint.

(** A message of the solhint engine ([processStr(...).messages]). *)
Record EngineMessage := {
  e_message : string;
  e_ruleId : string;
  e_severity : Z;
  e_line : Z;
  e_column : Z
}.

(** [ValidationConfig.DEFAULT_RULES], as the class declares it. The object
    is a static member: one object for all instances, held in the state
    that [build] threads. *)
Definition DEFAULT_RULES : gmap string JsVal :=
  {[ "func-visibility" := VBool false ]}.

Definition EMPTY_CONFIG : JsVal := VObj [("rules", VObj [])].

Record ValidationConfig := {
  ideRules : JsVal;
  fileConfig : JsVal;
  (** [fs.readFile] calls whose callback has not run yet *)
  pendingReads : nat
}.

Definition setIdeRules (rules : JsVal) (c : ValidationConfig) : ValidationConfig :=
  {| ideRules := if truthy rules then rules else VObj [];
     fileConfig := fileConfig c;
     pendingReads := pendingReads c |}.

(** [build()]: [statics] is the current content of the static
    [DEFAULT_RULES] object; the result is the content after the call, which
    is also the [rules] of the returned configuration (the same object).
    [None] when [this.fileConfig.rules] throws. *)
Definition build (statics : gmap string JsVal) (c : ValidationConfig)
  : option (gmap string JsVal) :=
  match get_rules (fileConfig c) with
  | None => None
  | Some fileRules => Some (Object_assign statics [ideRules c; fileRules])
  end.

(** [readFileConfig]: the file layer is reset and a read is started. *)
Definition readFileConfig (c : ValidationConfig) : ValidationConfig :=
  {| ideRules := ideRules c;
     fileConfig := EMPTY_CONFIG;
     pendingReads := S (pendingReads c) |}.

(** [new ValidationConfig(rootPath, ideRules)]: [setIdeRules], then
    [loadFileConfig], which reads the file at once and on every change. *)
Definition newValidationConfig (rules : JsVal) : ValidationConfig :=
  readFileConfig
    (setIdeRules rules {| ideRules := VUndefined; fileConfig := VUndefined; pendingReads := 0 |}).

Section Engine.
(** [JSON.parse]: [None] when it throws a SyntaxError. *)
Variable JSON_parse : string -> option JsVal.
(** [linter.processStr(text, {rules}).messages] of the solhint package. *)
Variable processStr : string -> gmap string JsVal -> list EngineMessage.

(** [onConfigLoaded(err, data)], the callback of [fs.readFile]: [err] is
    whether the read failed. [(!err) && JSON.parse(data)] is [false] on a
    failed read; a parse error is thrown before the assignment. Either
    way the read is over. *)
Definition onConfigLoaded (err : bool) (data : string) (c : ValidationConfig)
  : Completion unit * ValidationConfig :=
  let c := {| ideRules := ideRules c; fileConfig := fileConfig c;
              pendingReads := pred (pendingReads c) |} in
  if err then
    (Returned tt, {| ideRules := ideRules c; fileConfig := VBool false;
                     pendingReads := pendingReads c |})
  else
    match JSON_parse data with
    | Some v => (Returned tt, {| ideRules := ideRules c; fileConfig := v;
                                 pendingReads := pendingReads c |})
    | None => (Thrown, c)
    end.

Definition severity (error : EngineMessage) : Severity :=
  if Z.eqb (e_severity error) 3 then Warning else Error.

Definition rangeOf (error : EngineMessage) : Range :=
  let line := e_line error - 1 in
  let character := e_column error - 1 in
  {| start := {| line := line; character := character |};
     end_ := {| line := line; character := character + 1 |} |}.

Definition toDiagnostic (error : EngineMessage) : Diagnostic :=
  Build_Diagnostic
    (e_message error ++ " [" ++ e_ruleId error ++ "]")%string
    (severity error)
    (rangeOf error).

(** [SolhintService.validate(filePath, documentText)]: the diagnostics and
    the content of the static rule object after [build()]; [None] when
    [build()] throws. *)
Definition validate (statics : gmap string JsVal) (c : ValidationConfig)
    (filePath documentText : string)
  : option (list Diagnostic * gmap string JsVal) :=
  match build statics c with
  | None => None
  | Some rules => Some (map toDiagnostic (processStr documentText rules), rules)
  end.
End Engine.

End Solhint.

(** ** The linter interface ([src/linter/linter.ts]) and its two variants *)

(** Modelled from the spec: [SoliumService] ([src/linter/solium.ts]) is not
    among the sources. It is one of the "interchangeable rule-engine
    implementations behind the Linter Adapter capability"
    [{validate(filePath, text) -> Diagnostic[], setIdeRules(rules)}]: it
    holds the rules it was given last, and its [validate] is the engine
    applied to them. *)
Inductive Linter :=
| SolhintService (config : Solhint.ValidationConfig)
| SoliumService (rules : JsVal).

(** [settings.linter : boolean | string] *)
Inductive LinterOption :=
| OptBool (b : bool)
| OptStr (s : string).

(** [x === 'name'] for an option value. *)
Definition is_name (x : LinterOption) (name : string) : bool :=
  match x with
  | OptStr s => String.eqb s name
  | OptBool _ => false
  end.

Inductive Variant := NoLinter | Solhint_ | Solium_.

Definition variantOf (l : option Linter) : Variant :=
  match l with
  | None => NoLinter
  | Some (SolhintService _) => Solhint_
  | Some (SoliumService _) => Solium_
  end.

Definition Linter_setIdeRules (rules : JsVal) (l : Linter) : Linter :=
  match l with
  | SolhintService config => SolhintService (Solhint.setIdeRules rules config)
  | SoliumService _ => SoliumService rules
  end.

(** The [switch] of [onDidChangeConfiguration], the same in both servers:
    [case 'solhint'], [case 'solium'], [default: linter = null]. *)
Definition switchLinter (name : LinterOption) (linterDefaultRules : JsVal) : option Linter :=
  if is_name name "solhint" then Some (SolhintService (Solhint.newValidationConfig linterDefaultRules))
  else if is_name name "solium" then Some (SoliumService linterDefaultRules)
  else None.

(** ** [src/server.ts]: the server with the legacy settings *)

Module Server.

Record SoliditySettings := {
  enabledSolium : bool;
  linter : LinterOption;
  enabledAsYouTypeCompilationErrorCheck : bool;
  compileUsingLocalVersion : string;
  compileUsingRemoteVersion : string;
  soliumRules : JsVal;
  linterDefaultRules : JsVal;
  validationDelay : Z
}.

Definition linterName (settings : SoliditySettings) : LinterOption :=
  if enabledSolium settings then OptStr "solium" else linter settings.

Definition linterRules (settings : SoliditySettings) : JsVal :=
  if is_name (linterName settings) "solium" then
    (if truthy (soliumRules settings) then soliumRules settings
     else linterDefaultRules settings)
  else linterDefaultRules settings.

(** The value of the module variable [linter] after
    [onDidChangeConfiguration]: the [switch] on [linterName], then
    [setIdeRules(linterRules(...))] when a linter was selected. *)
Definition configuredLinter (settings : SoliditySettings) : option Linter :=
  Linter_setIdeRules (linterRules settings)
    <$> switchLinter (linterName settings) (linterDefaultRules settings).

End Server.

(** ** [src/linter/solhint.ts], second document: the server with the
       compile-diagnostic cache *)

Module Validation.

Module Settings.
Record t := {
  linter : LinterOption;
  enabledAsYouTypeCompilationErrorCheck : bool;
  compileUsingLocalVersion : string;
  compileUsingRemoteVersion : string;
  linterDefaultRules : JsVal;
  validationDelay : Z
}.
End Settings.

(** A [TextDocument] of the [TextDocuments] manager: the manager updates
    the text of an open document in place, so a closure that holds a
    document reads its current text. *)
Record TextDocument := { uri : string; getText : string }.

Record PublishDiagnosticsParams := { diagnostics : list Diagnostic; p_uri : string }.

(** The promise chain of one [validateCompilation] call:
    [compileFile(document).then(storeCompileErrors).then(appendLinterErrors)
     .then(sendDiagnostics).then(validateFlagToFalse, validateFlagToFalse)].
    A stage names the reaction that runs next and the settlement it
    receives ([Thrown]: the promise before it was rejected). *)
Inductive Stage :=
| Compiling
| Store (errors : Completion DiagArr)
| Append (errors : Completion DiagArr)
| Send (errors : Completion (DiagArr * list Diagnostic))
| Flag.

Record Job := { jid : nat; jdoc : nat; jstage : Stage }.

Record State := mkState {
  heap : list TextDocument;  (* every [TextDocument] object created so far; a document is its index *)
  opened : list nat;  (* [documents.all()] *)
  linter : option Linter;  (* [let linter: Linter = null] *)
  statics : gmap string JsVal;  (* the static object [ValidationConfig.DEFAULT_RULES] *)
  lastCompileErrorsForDocument : gmap string DiagArr;  (* [let lastCompileErrorsForDocument = {}] *)
  settings : Settings.t;  (* the six variables [onDidChangeConfiguration] assigns together *)
  validatingDocument : bool;
  validatingAllDocuments : bool;
  timers : list nat;  (* pending [setTimeout(() => validateCompilation(document), ...)] *)
  throttled : option nat;  (* the call the throttle wrapper holds back, with its latest argument *)
  jobs : list Job;  (* promise chains of [validateCompilation] not yet settled *)
  nextJob : nat;
  joins : list (list nat);  (* pending [Promise.all]: the jobs each still waits for *)
  inits : nat;  (* pending [intialiseCompiler(...)] promises *)
  sent : list PublishDiagnosticsParams;  (* trace of [connection.sendDiagnostics] *)
  compiled : list (string * string)  (* trace of [compileSolidityDocumentAndGetDiagnosticErrors(filePath, code)] *)
}.

Definition set_heap (v : list TextDocument) (st : State) : State :=
  mkState v (opened st) (linter st) (statics st) (lastCompileErrorsForDocument st)
    (settings st) (validatingDocument st) (validatingAllDocuments st) (timers st)
    (throttled st) (jobs st) (nextJob st) (joins st) (inits st) (sent st) (compiled st).
Definition set_opened (v : list nat) (st : State) : State :=
  mkState (heap st) v (linter st) (statics st) (lastCompileErrorsForDocument st)
    (settings st) (validatingDocument st) (validatingAllDocuments st) (timers st)
    (throttled st) (jobs st) (nextJob st) (joins st) (inits st) (sent st) (compiled st).
Definition set_linter (v : option Linter) (st : State) : State :=
  mkState (heap st) (opened st) v (statics st) (lastCompileErrorsForDocument st)
    (settings st) (validatingDocument st) (validatingAllDocuments st) (timers st)
    (throttled st) (jobs st) (nextJob st) (joins st) (inits st) (sent st) (compiled st).
Definition set_statics (v : gmap string JsVal) (st : State) : State :=
  mkState (heap st) (opened st) (linter st) v (lastCompileErrorsForDocument st)
    (settings st) (validatingDocument st) (validatingAllDocuments st) (timers st)
    (throttled st) (jobs st) (nextJob st) (joins st) (inits st) (sent st) (compiled st).
Definition set_lastCompileErrorsForDocument (v : gmap string DiagArr) (st : State) : State :=
  mkState (heap st) (opened st) (linter st) (statics st) v (settings st)
    (validatingDocument st) (validatingAllDocuments st) (timers st) (throttled st)
    (jobs st) (nextJob st) (joins st) (inits st) (sent st) (compiled st).
Definition set_settings (v : Settings.t) (st : State) : State :=
  mkState (heap st) (opened st) (linter st) (statics st)
    (lastCompileErrorsForDocument st) v (validatingDocument st)
    (validatingAllDocuments st) (timers st) (throttled st) (jobs st) (nextJob st)
    (joins st) (inits st) (sent st) (compiled st).
Definition set_validatingDocument (v : bool) (st : State) : State :=
  mkState (heap st) (opened st) (linter st) (statics st)
    (lastCompileErrorsForDocument st) (settings st) v (validatingAllDocuments st)
    (timers st) (throttled st) (jobs st) (nextJob st) (joins st) (inits st) (sent st)
    (compiled st).
Definition set_validatingAllDocuments (v : bool) (st : State) : State :=
  mkState (heap st) (opened st) (linter st) (statics st)
    (lastCompileErrorsForDocument st) (settings st) (validatingDocument st) v
    (timers st) (throttled st) (jobs st) (nextJob st) (joins st) (inits st) (sent st)
    (compiled st).
Definition set_timers (v : list nat) (st : State) : State :=
  mkState (heap st) (opened st) (linter st) (statics st)
    (lastCompileErrorsForDocument st) (settings st) (validatingDocument st)
    (validatingAllDocuments st) v (throttled st) (jobs st) (nextJob st) (joins st)
    (inits st) (sent st) (compiled st).
Definition set_throttled (v : option nat) (st : State) : State :=
  mkState (heap st) (opened st) (linter st) (statics st)
    (lastCompileErrorsForDocument st) (settings st) (validatingDocument st)
    (validatingAllDocuments st) (timers st) v (jobs st) (nextJob st) (joins st)
    (inits st) (sent st) (compiled st).
Definition set_jobs (v : list Job) (st : State) : State :=
  mkState (heap st) (opened st) (linter st) (statics st)
    (lastCompileErrorsForDocument st) (settings st) (validatingDocument st)
    (validatingAllDocuments st) (timers st) (throttled st) v (nextJob st) (joins st)
    (inits st) (sent st) (compiled st).
Definition set_nextJob (v : nat) (st : State) : State :=
  mkState (heap st) (opened st) (linter st) (statics st)
    (lastCompileErrorsForDocument st) (settings st) (validatingDocument st)
    (validatingAllDocuments st) (timers st) (throttled st) (jobs st) v (joins st)
    (inits st) (sent st) (compiled st).
Definition set_joins (v : list (list nat)) (st : State) : State :=
  mkState (heap st) (opened st) (linter st) (statics st)
    (lastCompileErrorsForDocument st) (settings st) (validatingDocument st)
    (validatingAllDocuments st) (timers st) (throttled st) (jobs st) (nextJob st) v
    (inits st) (sent st) (compiled st).
Definition set_inits (v : nat) (st : State) : State :=
  mkState (heap st) (opened st) (linter st) (statics st)
    (lastCompileErrorsForDocument st) (settings st) (validatingDocument st)
    (validatingAllDocuments st) (timers st) (throttled st) (jobs st) (nextJob st)
    (joins st) v (sent st) (compiled st).
Definition set_sent (v : list PublishDiagnosticsParams) (st : State) : State :=
  mkState (heap st) (opened st) (linter st) (statics st)
    (lastCompileErrorsForDocument st) (settings st) (validatingDocument st)
    (validatingAllDocuments st) (timers st) (throttled st) (jobs st) (nextJob st)
    (joins st) (inits st) v (compiled st).
Definition set_compiled (v : list (string * string)) (st : State) : State :=
  mkState (heap st) (opened st) (linter st) (statics st)
    (lastCompileErrorsForDocument st) (settings st) (validatingDocument st)
    (validatingAllDocuments st) (timers st) (throttled st) (jobs st) (nextJob st)
    (joins st) (inits st) (sent st) v.

(** The module-level variables as the file initialises them. *)
Definition initial : State :=
  {| heap := []; opened := []; linter := None;
     statics := Solhint.DEFAULT_RULES;
     lastCompileErrorsForDocument := ∅;
     settings := {| Settings.linter := OptBool false;
                    Settings.enabledAsYouTypeCompilationErrorCheck := false;
                    Settings.compileUsingLocalVersion := "";
                    Settings.compileUsingRemoteVersion := "";
                    Settings.linterDefaultRules := VObj [];
                    Settings.validationDelay := 1500 |};
     validatingDocument := false; validatingAllDocuments := false;
     timers := []; throttled := None; jobs := []; nextJob := 0%nat;
     joins := []; inits := 0%nat; sent := []; compiled := [] |}.

Definition enabledAsYouTypeErrorCheck (st : State) : bool :=
  Settings.enabledAsYouTypeCompilationErrorCheck (settings st).

(** [mergeErrors(...errors)]: [i && i.length > 0] keeps the arrays that
    are neither [null] nor empty; [reduce] concatenates them onto [[]]. *)
Definition mergeErrors (errors : list DiagArr) : list Diagnostic :=
  fold_left (fun prev curErrors => prev ++ default [] curErrors)
    (List.filter (fun i => match i with Some (_ :: _) => true | _ => false end) errors)
    [].

(** [sendDiagnostics(uri, ...diagnosticsList)] *)
Definition sendDiagnostics (u : string) (diagnosticsList : list DiagArr) (st : State) : State :=
  set_sent (sent st ++ [{| diagnostics := mergeErrors diagnosticsList; p_uri := u |}]) st.

Definition validateFlagToFalse (st : State) : State := set_validatingDocument false st.

Definition validateAllFlagToFalse (st : State) : State := set_validatingAllDocuments false st.

Definition uriOf (document : nat) (st : State) : string :=
  from_option uri "" (heap st !! document).

Definition textOf (document : nat) (st : State) : string :=
  from_option getText "" (heap st !! document).

Section Externals.
(** [Files.uriToFilePath] of vscode-languageserver, as the key it gives. *)
Variable uriToFilePath : string -> string.
Variable JSON_parse : string -> option JsVal.
Variable processStr : string -> gmap string JsVal -> list Solhint.EngineMessage.
(** The engine behind [SoliumService.validate]. *)
Variable soliumValidate : JsVal -> string -> string -> list Diagnostic.

Definition fileOf (document : nat) (st : State) : string :=
  uriToFilePath (uriOf document st).

(** [linter.validate(filePath, text)] through the interface. *)
Definition Linter_validate (l : Linter) (rules : gmap string JsVal) (filePath documentText : string)
  : option (list Diagnostic * gmap string JsVal) :=
  match l with
  | SolhintService config => Solhint.validate processStr rules config filePath documentText
  | SoliumService r => Some (soliumValidate r filePath documentText, rules)
  end.

Definition lintFile (document : nat) (st : State) : Completion (list Diagnostic) * State :=
  match linter st with
  | None => (Returned [], st)
  | Some l =>
      match Linter_validate l (statics st) (fileOf document st) (textOf document st) with
      | Some (ds, rules) => (Returned ds, set_statics rules st)
      | None => (Thrown, st)
      end
  end.

Definition lastCompileErrorsOf (document : nat) (st : State) : list Diagnostic :=
  match lastCompileErrorsForDocument st !! fileOf document st with
  | Some (Some errors) => errors
  | _ => []
  end.

(** [storeCompileErrors(document, errors)]; the value it returns is
    [errors]. *)
Definition storeCompileErrors (document : nat) (errors : DiagArr) (st : State) : State :=
  set_lastCompileErrorsForDocument
    (<[fileOf document st := errors]> (lastCompileErrorsForDocument st)) st.

(** [compileFile(document)]: the compiler is called with the path and the
    text; it throws ([throws]) or returns a promise, the head of a new
    chain. *)
Definition compileFile (throws : bool) (document : nat) (st : State) : Completion nat * State :=
  let st := set_compiled (compiled st ++ [(fileOf document st, textOf document st)]) st in
  if throws then (Thrown, st)
  else
    let j := nextJob st in
    (Returned j,
     set_nextJob (S j) (set_jobs (jobs st ++ [{| jid := j; jdoc := document; jstage := Compiling |}]) st)).

(** [validateCompilation(document)]: the promise it returns is the chain
    of job [j] ([Some j]) or [Promise.resolve(false)] ([None]). *)
Definition validateCompilation (throws : bool) (document : nat) (st : State)
  : Completion (option nat) * State :=
  if enabledAsYouTypeErrorCheck st then
    let st := set_validatingDocument true st in
    match compileFile throws document st with
    | (Returned j, st) => (Returned (Some j), st)
    | (Thrown, st) => (Thrown, st)
    end
  else (Returned None, st).

(** The function given to [throttle(100, ...)]. *)
Definition lintAndSendDiagnostics (document : nat) (st : State) : Completion unit * State :=
  match lintFile document st with
  | (Returned lint, st) =>
      (Returned tt,
       sendDiagnostics (uriOf document st) [Some lint; Some (lastCompileErrorsOf document st)] st)
  | (Thrown, st) => (Thrown, st)
  end.

(** [documents.all().map(document => validateCompilation(document))] *)
Fixpoint mapValidateCompilation (throws : nat -> bool) (documents : list nat) (st : State)
  : Completion (list (option nat)) * State :=
  match documents with
  | [] => (Returned [], st)
  | document :: rest =>
      match validateCompilation (throws document) document st with
      | (Thrown, st) => (Thrown, st)
      | (Returned p, st) =>
          match mapValidateCompilation throws rest st with
          | (Thrown, st) => (Thrown, st)
          | (Returned ps, st) => (Returned (p :: ps), st)
          end
      end
  end.

(** [validateAllDocuments()]. [Promise.all(compileResults)] waits for the
    chains among the results; when there is none, its reaction
    [validateAllFlagToFalse] runs as soon as the caller returns. *)
Definition validateAllDocuments (throws : nat -> bool) (st : State) : Completion unit * State :=
  if validatingAllDocuments st then (Returned tt, st)
  else
    let st := set_validatingAllDocuments true st in
    match mapValidateCompilation throws (opened st) st with
    | (Thrown, st) => (Thrown, st)
    | (Returned compileResults, st) =>
        match omap id compileResults with
        | [] => (Returned tt, validateAllFlagToFalse st)
        | pending => (Returned tt, set_joins (joins st ++ [pending]) st)
        end
    end.

Definition startValidation (throws : nat -> bool) (st : State) : Completion unit * State :=
  if enabledAsYouTypeErrorCheck st then (Returned tt, set_inits (S (inits st)) st)
  else validateAllDocuments throws st.

(** Modelled from the spec: [throttle] ([src/util.ts]) is not among the
    sources. "Throttled lint-validation (max one invocation per fixed
    short window ...; if called again within the window, the call is
    coalesced to fire at the window boundary with the latest document
    state, never dropped entirely)": [inWindow] says whether the call
    falls within a window. *)
Definition throttle_call (inWindow : bool) (document : nat) (st : State) : Completion unit * State :=
  if inWindow then (Returned tt, set_throttled (Some document) st)
  else lintAndSendDiagnostics document st.

Definition onDidChangeContent (inWindow : bool) (document : nat) (st : State)
  : Completion unit * State :=
  let st :=
    if negb (validatingDocument st) && negb (validatingAllDocuments st) then
      set_timers (timers st ++ [document]) (set_validatingDocument true st)
    else st in
  throttle_call inWindow document st.

Definition onDidClose (document : nat) (st : State) : State :=
  set_sent (sent st ++ [{| diagnostics := []; p_uri := uriOf document st |}]) st.

Definition onInitialize (st : State) : State :=
  match linter st with
  | None => set_linter (Some (SolhintService (Solhint.newValidationConfig VNull))) st
  | Some _ => st
  end.

Definition onDidChangeConfiguration (s : Settings.t) (throws : nat -> bool) (st : State)
  : Completion unit * State :=
  let st := set_settings s st in
  let st := set_linter (switchLinter (Settings.linter s) (Settings.linterDefaultRules s)) st in
  let st := set_linter (Linter_setIdeRules (Settings.linterDefaultRules s) <$> linter st) st in
  startValidation throws st.

(** *** Promise reactions *)

Definition findJob (j : nat) (st : State) : option Job :=
  List.find (fun job => Nat.eqb (jid job) j) (jobs st).

Definition setStage (j : nat) (s : Stage) (st : State) : State :=
  set_jobs
    (map (fun job => if Nat.eqb (jid job) j
                     then {| jid := jid job; jdoc := jdoc job; jstage := s |} else job)
         (jobs st)) st.

(** The chain of job [j] has settled: every [Promise.all] that waits for
    it is told, and one that waits for nothing more runs its reaction
    [validateAllFlagToFalse]. *)
Definition chainSettled (j : nat) (st : State) : State :=
  let st := set_jobs (List.filter (fun job => negb (Nat.eqb (jid job) j)) (jobs st)) st in
  let waiting := map (List.filter (fun k => negb (Nat.eqb k j))) (joins st) in
  let st := set_joins (List.filter (fun w => negb (Nat.eqb (length w) 0)) waiting) st in
  if existsb (fun w => Nat.eqb (length w) 0) waiting then validateAllFlagToFalse st else st.

(** The compiler settles the promise of job [j]. *)
Definition settle (j : nat) (o : Completion DiagArr) (st : State) : State :=
  match findJob j st with
  | Some {| jstage := Compiling |} => setStage j (Store o) st
  | _ => st
  end.

(** The next reaction of the chain of job [j]. A rejection passes through
    the three [then] that have no rejection handler and reaches the
    last, [then(validateFlagToFalse, validateFlagToFalse)]. *)
Definition hop (j : nat) (st : State) : State :=
  match findJob j st with
  | None => st
  | Some job =>
      let document := jdoc job in
      match jstage job with
      | Compiling => st
      | Store (Returned errors) =>
          setStage j (Append (Returned errors)) (storeCompileErrors document errors st)
      | Store Thrown => setStage j (Append Thrown) st
      | Append (Returned errors) =>
          match lintFile document st with
          | (Returned lint, st) => setStage j (Send (Returned (errors, lint))) st
          | (Thrown, st) => setStage j (Send Thrown) st
          end
      | Append Thrown => setStage j (Send Thrown) st
      | Send (Returned (errors, lint)) =>
          setStage j Flag (sendDiagnostics (uriOf document st) [errors; Some lint] st)
      | Send Thrown => setStage j Flag st
      | Flag => chainSettled j (validateFlagToFalse st)
      end
  end.

(** The compile promise of job [j] settles and the four reactions of its
    chain run one after the other. *)
Definition settleAndRun (j : nat) (o : Completion DiagArr) (st : State) : State :=
  hop j (hop j (hop j (hop j (settle j o st)))).

(** *** The event loop *)

Inductive Event :=
| Initialize
| DidOpen (u text : string) (inWindow : bool)
| DidChange (document : nat) (text : string) (inWindow : bool)
| DidClose (document : nat)
| ThrottleFires
| TimerFires (k : nat) (throws : bool)
| DidChangeConfiguration (s : Settings.t) (throws : nat -> bool)
| CompilerInitialised (ok : bool) (throws : nat -> bool)
| CompileSettles (j : nat) (o : Completion DiagArr)
| Reaction (j : nat)
| FileWatch
| FileRead (err : bool) (data : string).

(** One turn of the event loop; a handler that throws leaves the state
    as it was when it threw. *)
Definition step (e : Event) (st : State) : State :=
  match e with
  | Initialize => onInitialize st
  | DidOpen u text inWindow =>
      let document := length (heap st) in
      let st := set_opened (opened st ++ [document])
                  (set_heap (heap st ++ [{| uri := u; getText := text |}]) st) in
      (onDidChangeContent inWindow document st).2
  | DidChange document text inWindow =>
      if bool_decide (document ∈ opened st) then
        let st := set_heap (<[document := {| uri := uriOf document st; getText := text |}]> (heap st)) st in
        (onDidChangeContent inWindow document st).2
      else st
  | DidClose document =>
      if bool_decide (document ∈ opened st) then
        onDidClose document
          (set_opened (List.filter (fun d => negb (Nat.eqb d document)) (opened st)) st)
      else st
  | ThrottleFires =>
      match throttled st with
      | Some document => (lintAndSendDiagnostics document (set_throttled None st)).2
      | None => st
      end
  | TimerFires k throws =>
      match timers st !! k with
      | Some document => (validateCompilation throws document (set_timers (delete k (timers st)) st)).2
      | None => st
      end
  | DidChangeConfiguration s throws => (onDidChangeConfiguration s throws st).2
  | CompilerInitialised ok throws =>
      match inits st with
      | O => st
      | S n =>
          let st := set_inits n st in
          if ok then (validateAllDocuments throws st).2 else st
      end
  | CompileSettles j o => settle j o st
  | Reaction j => hop j st
  | FileWatch =>
      match linter st with
      | Some (SolhintService config) =>
          set_linter (Some (SolhintService (Solhint.readFileConfig config))) st
      | _ => st
      end
  | FileRead err data =>
      match linter st with
      | Some (SolhintService config) =>
          match Solhint.pendingReads config with
          | O => st
          | S _ =>
              set_linter (Some (SolhintService (Solhint.onConfigLoaded JSON_parse err data config).2)) st
          end
      | _ => st
      end
  end.

Definition run (events : list Event) (st : State) : State :=
  fold_left (fun st e => step e st) events st.

End Externals.

End Validation.

(** ** Vocabulary of the properties *)

(** What is said of one engine message [e] and its diagnostic [d]. *)
Definition reports (e : Solhint.EngineMessage) (d : Diagnostic) : Prop :=
  message d = (Solhint.e_message e ++ " [" ++ Solhint.e_ruleId e ++ "]")%string
  /\ (Solhint.e_severity e = 3 -> severity d = Warning)
  /\ (Solhint.e_severity e <> 3 -> severity d = Error)
  /\ line (start (range d)) = Solhint.e_line e - 1
  /\ character (start (range d)) = Solhint.e_column e - 1
  /\ line (end_ (range d)) = line (start (range d))
  /\ character (end_ (range d)) = character (start (range d)) + 1.

(** The variant the modern option names on its own. *)
Definition variantNamed (name : LinterOption) : Variant :=
  if is_name name "solhint" then Solhint_
  else if is_name name "solium" then Solium_
  else NoLinter.

(** The arrays [mergeErrors] keeps: neither [null] nor empty. *)
Definition keptLists (errors : list DiagArr) : list (list Diagnostic) :=
  omap (fun i => match i with Some (d :: ds) => Some (d :: ds) | _ => None end) errors.

(** ** A small concrete world, for the examples *)

Module Sample.

(** [file:///a.sol] gives [/a.sol]. *)
Definition uriToFilePath (u : string) : string :=
  if String.prefix "file://" u then String.substring 7 (String.length u - 7) u else u.

Definition JSON_parse (s : string) : option JsVal :=
  if String.eqb s "{}" then Some (VObj []) else None.

Definition finding : Solhint.EngineMessage :=
  {| Solhint.e_message := "Avoid to use tx.origin";
     Solhint.e_ruleId := "avoid-tx-origin";
     Solhint.e_severity := 3;
     Solhint.e_line := 2;
     Solhint.e_column := 5 |}.

(** An engine that reports one finding in every text. *)
Definition processStr (text : string) (rules : gmap string JsVal) : list Solhint.EngineMessage :=
  [finding].

Definition soliumValidate (rules : JsVal) (filePath text : string) : list Diagnostic := [].

(** The diagnostic of [finding]. *)
Definition lintDiagnostic : Diagnostic :=
  {| message := "Avoid to use tx.origin [avoid-tx-origin]";
     severity := Warning;
     range := {| start := {| line := 1; character := 4 |};
                 end_ := {| line := 1; character := 5 |} |} |}.

(** A diagnostic of the compiler. *)
Definition compileDiagnostic : Diagnostic :=
  {| message := "ParserError: Expected ';'";
     severity := Error;
     range := {| start := {| line := 0; character := 0 |};
                 end_ := {| line := 0; character := 1 |} |} |}.

Definition settings : Validation.Settings.t :=
  {| Validation.Settings.linter := OptStr "solhint";
     Validation.Settings.enabledAsYouTypeCompilationErrorCheck := true;
     Validation.Settings.compileUsingLocalVersion := "";
     Validation.Settings.compileUsingRemoteVersion := "";
     Validation.Settings.linterDefaultRules := VObj [];
     Validation.Settings.validationDelay := 1500 |}.

Definition never : nat -> bool := fun _ => false.

Definition step := Validation.step uriToFilePath JSON_parse processStr soliumValidate.
Definition run := Validation.run uriToFilePath JSON_parse processStr soliumValidate.

(** The server is configured, [a.sol] is opened, its compilation is
    started by the timer and is fulfilled with one diagnostic, and the
    chain runs. *)
Definition compiledOnce : list Validation.Event :=
  [ Validation.Initialize;
    Validation.DidChangeConfiguration settings never;
    Validation.CompilerInitialised true never;
    Validation.DidOpen "file:///a.sol" "contract A { }" false;
    Validation.TimerFires 0 false;
    Validation.CompileSettles 0 (Returned (Some [compileDiagnostic]));
    Validation.Reaction 0; Validation.Reaction 0;
    Validation.Reaction 0; Validation.Reaction 0 ].

(** After that the text changes, the second compilation is rejected, and
    the chain runs. *)
Definition thenRejected : list Validation.Event :=
  compiledOnce ++
  [ Validation.DidChange 0 "contract A { " false;
    Validation.TimerFires 0 false;
    Validation.CompileSettles 1 Thrown;
    Validation.Reaction 1; Validation.Reaction 1;
    Validation.Reaction 1; Validation.Reaction 1 ].

(** After [compiledOnce] the timer of a changed text has started a second
    compilation, chain 1. *)
Definition secondStarted : list Validation.Event :=
  compiledOnce ++
  [ Validation.DidChange 0 "contract A { " false;
    Validation.TimerFires 0 false ].

(** Two documents are open when the compiler is initialised: a pass starts
    with the chains 0 and 1. *)
Definition passStarted : list Validation.Event :=
  [ Validation.Initialize;
    Validation.DidOpen "file:///a.sol" "contract A { }" false;
    Validation.DidOpen "file:///b.sol" "contract B { }" false;
    Validation.DidChangeConfiguration settings never;
    Validation.CompilerInitialised true never ].

(** The compilation of [a.sol] is rejected and its chain runs. *)
Definition passOneRejected : list Validation.Event :=
  passStarted ++
  [ Validation.CompileSettles 0 Thrown;
    Validation.Reaction 0; Validation.Reaction 0; Validation.Reaction 0 ].

End Sample.

(** ** Whole-workspace passes *)



(** [st'] has the documents, the linter, the rule object, the cache, the
    settings and the publishes of [st]: what [validateCompilation] and
    [validateAllDocuments] leave alone. *)
Definition keepsData (st st' : Validation.State) : Prop :=
  Validation.heap st' = Validation.heap st
  /\ Validation.opened st' = Validation.opened st
  /\ Validation.linter st' = Validation.linter st
  /\ Validation.statics st' = Validation.statics st
  /\ Validation.lastCompileErrorsForDocument st' = Validation.lastCompileErrorsForDocument st
  /\ Validation.settings st' = Validation.settings st
  /\ Validation.timers st' = Validation.timers st
  /\ Validation.sent st' = Validation.sent st.

(** [st'] has the cache and the settings of [st]; if the per-document flag
    was set it still is; and if compile checking is disabled the compiler
    has not been called in between. *)
Definition quiet (st st' : Validation.State) : Prop :=
  Validation.lastCompileErrorsForDocument st' = Validation.lastCompileErrorsForDocument st
  /\ Validation.settings st' = Validation.settings st
  /\ (Validation.validatingDocument st = true -> Validation.validatingDocument st' = true)
  /\ (Validation.enabledAsYouTypeErrorCheck st = false ->
      Validation.compiled st' = Validation.compiled st).

(** ** [src/server.ts], continued: the synchronous validation *)

Module LegacyServer.

(** The module-level variables [onDidChangeConfiguration] assigns from the
    settings. *)
Record Config := {
  enabledAsYouTypeErrorCheck : bool;
  compileUsingRemoteVersion : string;
  compileUsingLocalVersion : string;
  linterOption : LinterOption;
  linterDefaultRules : JsVal;
  validationDelay : Z
}.

Record State := mkState {
  heap : list Validation.TextDocument;  (* every [TextDocument] object created so far *)
  opened : list nat;  (* [documents.all()] *)
  linter : option Linter;
  statics : gmap string JsVal;  (* the static object [ValidationConfig.DEFAULT_RULES] *)
  config : Config;
  validatingDocument : bool;
  validatingAllDocuments : bool;
  timers : list nat;  (* pending [setTimeout(() => validate(document), validationDelay)] *)
  inits : nat;  (* pending [intialiseCompiler(...)] promises *)
  sent : list Validation.PublishDiagnosticsParams;  (* trace of [connection.sendDiagnostics] *)
  compiled : list (string * string)  (* trace of the compiler calls *)
}.

Definition set_heap (v : list Validation.TextDocument) (st : State) : State :=
  mkState v (opened st) (linter st) (statics st) (config st) (validatingDocument st)
    (validatingAllDocuments st) (timers st) (inits st) (sent st) (compiled st).
Definition set_opened (v : list nat) (st : State) : State :=
  mkState (heap st) v (linter st) (statics st) (config st) (validatingDocument st)
    (validatingAllDocuments st) (timers st) (inits st) (sent st) (compiled st).
Definition set_linter (v : option Linter) (st : State) : State :=
  mkState (heap st) (opened st) v (statics st) (config st) (validatingDocument st)
    (validatingAllDocuments st) (timers st) (inits st) (sent st) (compiled st).
Definition set_statics (v : gmap string JsVal) (st : State) : State :=
  mkState (heap st) (opened st) (linter st) v (config st) (validatingDocument st)
    (validatingAllDocuments st) (timers st) (inits st) (sent st) (compiled st).
Definition set_config (v : Config) (st : State) : State :=
  mkState (heap st) (opened st) (linter st) (statics st) v (validatingDocument st)
    (validatingAllDocuments st) (timers st) (inits st) (sent st) (compiled st).
Definition set_validatingDocument (v : bool) (st : State) : State :=
  mkState (heap st) (opened st) (linter st) (statics st) (config st) v
    (validatingAllDocuments st) (timers st) (inits st) (sent st) (compiled st).
Definition set_validatingAllDocuments (v : bool) (st : State) : State :=
  mkState (heap st) (opened st) (linter st) (statics st) (config st)
    (validatingDocument st) v (timers st) (inits st) (sent st) (compiled st).
Definition set_timers (v : list nat) (st : State) : State :=
  mkState (heap st) (opened st) (linter st) (statics st) (config st)
    (validatingDocument st) (validatingAllDocuments st) v (inits st) (sent st)
    (compiled st).
Definition set_inits (v : nat) (st : State) : State :=
  mkState (heap st) (opened st) (linter st) (statics st) (config st)
    (validatingDocument st) (validatingAllDocuments st) (timers st) v (sent st)
    (compiled st).
Definition set_sent (v : list Validation.PublishDiagnosticsParams) (st : State) : State :=
  mkState (heap st) (opened st) (linter st) (statics st) (config st)
    (validatingDocument st) (validatingAllDocuments st) (timers st) (inits st) v
    (compiled st).
Definition set_compiled (v : list (string * string)) (st : State) : State :=
  mkState (heap st) (opened st) (linter st) (statics st) (config st)
    (validatingDocument st) (validatingAllDocuments st) (timers st) (inits st) (sent st) v.

Definition initial : State :=
  {| heap := []; opened := []; linter := None;
     statics := Solhint.DEFAULT_RULES;
     config := {| enabledAsYouTypeErrorCheck := false;
                  compileUsingRemoteVersion := "";
                  compileUsingLocalVersion := "";
                  linterOption := OptBool false;
                  linterDefaultRules := VObj [];
                  validationDelay := 1500 |};
     validatingDocument := false; validatingAllDocuments := false;
     timers := []; inits := 0%nat; sent := []; compiled := [] |}.

Definition uriOf (document : nat) (st : State) : string :=
  from_option Validation.uri "" (heap st !! document).

Definition textOf (document : nat) (st : State) : string :=
  from_option Validation.getText "" (heap st !! document).

(** [sendDiagnostics(diagnostics, uri)] *)
Definition sendDiagnostics (diagnostics : list Diagnostic) (u : string) (st : State) : State :=
  set_sent (sent st ++ [{| Validation.diagnostics := diagnostics; Validation.p_uri := u |}]) st.

Section Externals.
Variable uriToFilePath : string -> string.
Variable JSON_parse : string -> option JsVal.
Variable processStr : string -> gmap string JsVal -> list Solhint.EngineMessage.
Variable soliumValidate : JsVal -> string -> string -> list Diagnostic.

(** The body of the [try] of [validate(document)]. [compile] is the
    compiler at this call: the diagnostics it returns for a path and a text,
    or that it throws. *)
Definition validate_try (compile : string -> string -> Completion (list Diagnostic))
    (document : nat) (st : State) : Completion unit * State :=
  let st := set_validatingDocument true st in
  let filePath := uriToFilePath (uriOf document st) in
  let documentText := textOf document st in
  let linted : Completion (list Diagnostic) * State :=
    match linter st with
    | Some l =>
        match Validation.Linter_validate processStr soliumValidate l (statics st)
                filePath documentText with
        | Some (linterDiagnostics, rules) =>
            (Returned linterDiagnostics,
             sendDiagnostics linterDiagnostics (uriOf document st) (set_statics rules st))
        | None => (Thrown, st)
        end
    | None => (Returned [], st)
    end in
  match linted with
  | (Thrown, st) => (Thrown, st)
  | (Returned linterDiagnostics, st) =>
      let compiledNow : Completion (list Diagnostic) * State :=
        if enabledAsYouTypeErrorCheck (config st) then
          (compile filePath documentText,
           set_compiled (compiled st ++ [(filePath, documentText)]) st)
        else (Returned [], st) in
      match compiledNow with
      | (Thrown, st) => (Thrown, st)
      | (Returned compileErrorDiagnostics, st) =>
          (Returned tt,
           sendDiagnostics (linterDiagnostics ++ compileErrorDiagnostics) (uriOf document st) st)
      end
  end.

(** [validate(document)]: the [finally] clears the flag whether the [try]
    returns or throws, and an exception goes on to the caller. *)
Definition validate (compile : string -> string -> Completion (list Diagnostic))
    (document : nat) (st : State) : Completion unit * State :=
  let '(r, st) := validate_try compile document st in
  (r, set_validatingDocument false st).

(** [documents.all().forEach(document => validate(document))] *)
Fixpoint forEachValidate (compile : string -> string -> Completion (list Diagnostic))
    (documents : list nat) (st : State) : Completion unit * State :=
  match documents with
  | [] => (Returned tt, st)
  | document :: rest =>
      match validate compile document st with
      | (Thrown, st) => (Thrown, st)
      | (Returned _, st) => forEachValidate compile rest st
      end
  end.

Definition validateAllDocuments (compile : string -> string -> Completion (list Diagnostic))
    (st : State) : Completion unit * State :=
  if validatingAllDocuments st then (Returned tt, st)
  else
    let st := set_validatingAllDocuments true st in
    let '(r, st) := forEachValidate compile (opened st) st in
    (r, set_validatingAllDocuments false st).

Definition startValidation (compile : string -> string -> Completion (list Diagnostic))
    (st : State) : Completion unit * State :=
  if enabledAsYouTypeErrorCheck (config st) then (Returned tt, set_inits (S (inits st)) st)
  else validateAllDocuments compile st.

Definition onDidChangeContent (document : nat) (st : State) : State :=
  if negb (validatingDocument st) && negb (validatingAllDocuments st) then
    set_timers (timers st ++ [document]) (set_validatingDocument true st)
  else st.

Definition onDidClose (document : nat) (st : State) : State :=
  set_sent (sent st ++ [{| Validation.diagnostics := [];
                           Validation.p_uri := uriOf document st |}]) st.

Definition onInitialize (st : State) : State :=
  match linter st with
  | None => set_linter (Some (SolhintService (Solhint.newValidationConfig VNull))) st
  | Some _ => st
  end.

Definition onDidChangeConfiguration (s : Server.SoliditySettings)
    (compile : string -> string -> Completion (list Diagnostic)) (st : State)
  : Completion unit * State :=
  let st := set_config
              {| enabledAsYouTypeErrorCheck := Server.enabledAsYouTypeCompilationErrorCheck s;
                 compileUsingRemoteVersion := Server.compileUsingRemoteVersion s;
                 compileUsingLocalVersion := Server.compileUsingLocalVersion s;
                 linterOption := Server.linter s;
                 linterDefaultRules := Server.linterDefaultRules s;
                 validationDelay := Server.validationDelay s |} st in
  let st := set_linter (Server.configuredLinter s) st in
  startValidation compile st.

Inductive Event :=
| Initialize
| DidOpen (u text : string)
| DidChange (document : nat) (text : string)
| DidClose (document : nat)
| TimerFires (k : nat) (compile : string -> string -> Completion (list Diagnostic))
| DidChangeConfiguration (s : Server.SoliditySettings)
    (compile : string -> string -> Completion (list Diagnostic))
| CompilerInitialised (ok : bool) (compile : string -> string -> Completion (list Diagnostic))
| FileWatch
| FileRead (err : bool) (data : string).

(** One turn of the event loop; a handler that throws leaves the state as it
    was when it threw. *)
Definition step (e : Event) (st : State) : State :=
  match e with
  | Initialize => onInitialize st
  | DidOpen u text =>
      let document := length (heap st) in
      onDidChangeContent document
        (set_opened (opened st ++ [document])
           (set_heap (heap st ++ [{| Validation.uri := u; Validation.getText := text |}]) st))
  | DidChange document text =>
      if bool_decide (document ∈ opened st) then
        onDidChangeContent document
          (set_heap (<[document := {| Validation.uri := uriOf document st;
                                      Validation.getText := text |}]> (heap st)) st)
      else st
  | DidClose document =>
      if bool_decide (document ∈ opened st) then
        onDidClose document
          (set_opened (List.filter (fun d => negb (Nat.eqb d document)) (opened st)) st)
      else st
  | TimerFires k compile =>
      match timers st !! k with
      | Some document => (validate compile document (set_timers (delete k (timers st)) st)).2
      | None => st
      end
  | DidChangeConfiguration s compile => (onDidChangeConfiguration s compile st).2
  | CompilerInitialised ok compile =>
      match inits st with
      | O => st
      | S n =>
          let st := set_inits n st in
          if ok then (validateAllDocuments compile st).2 else st
      end
  | FileWatch =>
      match linter st with
      | Some (SolhintService c) => set_linter (Some (SolhintService (Solhint.readFileConfig c))) st
      | _ => st
      end
  | FileRead err data =>
      match linter st with
      | Some (SolhintService c) =>
          match Solhint.pendingReads c with
          | O => st
          | S _ => set_linter (Some (SolhintService (Solhint.onConfigLoaded JSON_parse err data c).2)) st
          end
      | _ => st
      end
  end.

Definition run (events : list Event) (st : State) : State :=
  fold_left (fun st e => step e st) events st.

End Externals.

End LegacyServer.

(** ** [connection.onCompletion], the same handler in both servers *)

Module OnCompletion.

Import Stdlib.Strings.Ascii.

(** [documentText.split(/\r?\n/g)]: a line ends at a line feed, and a
    carriage return just before it belongs to the separator. [acc] holds the
    characters of the current line, last first. *)
Fixpoint splitLines (acc : list Ascii.ascii) (s : string) : list string :=
  match s with
  | EmptyString => [String.string_of_list_ascii (rev acc)]
  | String c rest =>
      if Ascii.eqb c "010"%char then String.string_of_list_ascii (rev acc) :: splitLines [] rest
      else
        match rest with
        | String c' rest' =>
            if Ascii.eqb c "013"%char && Ascii.eqb c' "010"%char
            then String.string_of_list_ascii (rev acc) :: splitLines [] rest'
            else splitLines (c :: acc) rest
        | EmptyString => splitLines (c :: acc) rest
        end
  end.

(** The variables of the [for] loop. *)
Record Scan := { i : Z; start : Z; triggeredByDot : bool }.

(** [lines[position.line[i]]]: [position.line] is a number and has no
    property [i], and [lines] has no property [undefined], so the value is
    [undefined] at every [i]. *)
Definition lineAtIndexedNumber : option string := None.

Definition dot : ascii := "."%char.

(** The character [s[i]] of a string, [undefined] out of range. *)
Definition charAt (s : string) (i : Z) : option Ascii.ascii :=
  if Z.ltb i 0 then None else String.get (Z.to_nat i) s.

(** One run of the body of the loop on the line [lines[position.line]]. *)
Definition scanBody (line : string) (s : Scan) : Scan :=
  let s :=
    if bool_decide (lineAtIndexedNumber = Some " ")
    then {| i := 0; start := 0; triggeredByDot := false |}
    else s in
  if bool_decide (charAt line (i s) = Some dot)
  then {| i := 0; start := i s; triggeredByDot := true |}
  else s.

(** [for (let i = position.character; i >= 0; i--) { body }], with enough
    fuel for every run. *)
Fixpoint scanLoop (fuel : nat) (line : string) (s : Scan) : Scan :=
  match fuel with
  | O => s
  | S fuel =>
      if Z.leb 0 (i s) then
        let s := scanBody line s in
        scanLoop fuel line {| i := i s - 1; start := start s; triggeredByDot := triggeredByDot s |}
      else s
  end.

Definition scan (line : string) (character : nat) : Scan :=
  scanLoop (S character) line
    {| i := Z.of_nat character; start := 0; triggeredByDot := false |}.

(** How the [try] block ends. *)
Inductive TryEnd (Item : Type) :=
| ReturnsEarly (completionItems : list Item)
| FallsThrough (completionItems : list Item)
| Caught.
Arguments ReturnsEarly {Item} completionItems.
Arguments FallsThrough {Item} completionItems.
Arguments Caught {Item}.

Section Handler.
Variable Item : Type.
Variable uriToFilePath : string -> string.
(** [GetContextualAutoCompleteByGlobalVariable(line, start)]; [None] is
    [null]. *)
Variable GetContextualAutoCompleteByGlobalVariable :
  string -> Z -> Completion (option (list Item)).
(** [new CompletionService(rootPath).getAllCompletionItems(text, path)] *)
Variable getAllCompletionItems : string -> string -> Completion (list Item).
Variable GetCompletionTypes : list Item.
Variable GeCompletionUnits : list Item.
Variable GetGlobalFunctions : list Item.
Variable GetGlobalVariables : list Item.

(** The [try] block. [document] is the text of [documents.get(uri)], [None]
    when there is no such document; reading the text of [undefined] and
    indexing the line [undefined] throw. *)
Definition tryBlock (document : option string) (u : string) (line character : nat)
  : TryEnd Item :=
  match document with
  | None => Caught
  | Some documentText =>
      let documentPath := uriToFilePath u in
      let lines := splitLines [] documentText in
      match lines !! line with
      | None => Caught
      | Some theLine =>
          let s := scan theLine character in
          if triggeredByDot s then
            match GetContextualAutoCompleteByGlobalVariable theLine (start s) with
            | Thrown => Caught
            | Returned None => ReturnsEarly []
            | Returned (Some globalVariableContext) => ReturnsEarly ([] ++ globalVariableContext)
            end
          else
            match getAllCompletionItems documentText documentPath with
            | Thrown => Caught
            | Returned items => FallsThrough ([] ++ items)
            end
      end
  end.

(** The handler: a [return] in the [try] has its value before the [finally]
    runs, so what the [finally] appends to the variable is not in it. *)
Definition onCompletion (document : option string) (u : string) (line character : nat)
  : list Item :=
  let globals :=
    GetCompletionTypes ++ GeCompletionUnits ++ GetGlobalFunctions ++ GetGlobalVariables in
  match tryBlock document u line character with
  | ReturnsEarly completionItems => completionItems
  | FallsThrough completionItems => completionItems ++ globals
  | Caught => [] ++ globals
  end.

End Handler.

End OnCompletion.

(** The greatest index at or before [n] where [line] has a dot. *)
Fixpoint lastDot (line : string) (n : nat) : option nat :=
  if bool_decide (String.get n line = Some OnCompletion.dot) then Some n
  else match n with
       | O => None
       | S m => lastDot line m
       end.

(** ** More of the sample world *)

Module Sample2.

(** As [Sample.JSON_parse], and [null] is parsed, too. *)
Definition JSON_parse (s : string) : option JsVal :=
  if String.eqb s "null" then Some VNull
  else if String.eqb s "{}" then Some (VObj [])
  else None.

Definition run := Validation.run Sample.uriToFilePath JSON_parse Sample.processStr Sample.soliumValidate.

(** [a.sol] is open and its first compilation, chain 0, is running. *)
Definition firstCompiling : list Validation.Event :=
  [ Validation.Initialize;
    Validation.DidChangeConfiguration Sample.settings Sample.never;
    Validation.CompilerInitialised true Sample.never;
    Validation.DidOpen "file:///a.sol" "contract A { }" false;
    Validation.TimerFires 0 false ].

(** The same, after the file configuration was read as [null]. *)
Definition nullConfigCompiling : list Validation.Event :=
  [ Validation.Initialize;
    Validation.DidChangeConfiguration Sample.settings Sample.never;
    Validation.CompilerInitialised true Sample.never;
    Validation.FileRead false "null";
    Validation.DidOpen "file:///a.sol" "contract A { }" false;
    Validation.TimerFires 0 false ].

(** The chain 0 has published and its last reaction is due. *)
Definition lastReactionDue : list Validation.Event :=
  firstCompiling ++
  [ Validation.CompileSettles 0 (Returned (Some [Sample.compileDiagnostic]));
    Validation.Reaction 0; Validation.Reaction 0; Validation.Reaction 0 ].

Definition disabledSettings : Validation.Settings.t :=
  {| Validation.Settings.linter := OptStr "solhint";
     Validation.Settings.enabledAsYouTypeCompilationErrorCheck := false;
     Validation.Settings.compileUsingLocalVersion := "";
     Validation.Settings.compileUsingRemoteVersion := "";
     Validation.Settings.linterDefaultRules := VObj [];
     Validation.Settings.validationDelay := 1500 |}.

(** Compile checking is switched off after a first compilation. *)
Definition thenDisabled : list Validation.Event :=
  Sample.compiledOnce ++ [ Validation.DidChangeConfiguration disabledSettings Sample.never ].

Definition legacySettings : Server.SoliditySettings :=
  {| Server.enabledSolium := false;
     Server.linter := OptStr "solhint";
     Server.enabledAsYouTypeCompilationErrorCheck := true;
     Server.compileUsingLocalVersion := "";
     Server.compileUsingRemoteVersion := "";
     Server.soliumRules := VUndefined;
     Server.linterDefaultRules := VObj [];
     Server.validationDelay := 1500 |}.

Definition compileOk (filePath text : string) : Completion (list Diagnostic) :=
  Returned [Sample.compileDiagnostic].

Definition compileThrows (filePath text : string) : Completion (list Diagnostic) := Thrown.

Definition legacyRun :=
  LegacyServer.run Sample.uriToFilePath Sample.JSON_parse Sample.processStr Sample.soliumValidate.

(** The synchronous server with two documents open, solhint selected and
    compile checking enabled. *)
Definition legacyTwoOpen : list LegacyServer.Event :=
  [ LegacyServer.Initialize;
    LegacyServer.DidOpen "file:///a.sol" "contract A { }";
    LegacyServer.DidOpen "file:///b.sol" "contract B { }";
    LegacyServer.DidChangeConfiguration legacySettings compileOk ].

End Sample2.

(** * Properties *)

(** ** The solhint adapter *)

Section SolhintFacts.
Variable processStr : string -> gmap string JsVal -> list Solhint.EngineMessage.

Lemma toDiagnostic_message e :
  message (Solhint.toDiagnostic e)
  = (Solhint.e_message e ++ " [" ++ Solhint.e_ruleId e ++ "]")%string.
Proof. reflexivity. Qed.

Lemma severity_cases e :
  (Solhint.e_severity e = 3 -> Solhint.severity e = Warning)
  /\ (Solhint.e_severity e <> 3 -> Solhint.severity e = Error).
Proof.
  unfold Solhint.severity. destruct (Z.eqb_spec (Solhint.e_severity e) 3); split; congruence.
Qed.

Lemma rangeOf_shape e :
  let r := Solhint.rangeOf e in
  line (start r) = Solhint.e_line e - 1
  /\ character (start r) = Solhint.e_column e - 1
  /\ line (end_ r) = line (start r)
  /\ character (end_ r) = character (start r) + 1.
Proof. cbn. repeat split. Qed.

Lemma validate_throws_iff statics c filePath documentText :
  Solhint.validate processStr statics c filePath documentText = None
  <-> get_rules (Solhint.fileConfig c) = None.
Proof.
  unfold Solhint.validate, Solhint.build.
  destruct (get_rules (Solhint.fileConfig c)); split; congruence.
Qed.
End SolhintFacts.

(** C10. [SolhintService.validate] returns unless [fileConfig.rules] throws,
    and then its result has one diagnostic per engine message, in the
    engine's order: the message followed by the rule id in square brackets,
    severity Warning exactly for engine severity 3 and Error otherwise, the
    start at (line - 1, column - 1) and the end one character further on the
    same line. *)
Theorem validate_reports_engine_messages
    (processStr : string -> gmap string JsVal -> list Solhint.EngineMessage)
    (statics : gmap string JsVal) (c : Solhint.ValidationConfig) (filePath documentText : string) :
  match Solhint.validate processStr statics c filePath documentText with
  | Some (ds, rules) =>
      Solhint.build statics c = Some rules
      /\ Forall2 reports (processStr documentText rules) ds
  | None => get_rules (Solhint.fileConfig c) = None
  end.
Proof.
  unfold Solhint.validate.
  destruct (Solhint.build statics c) as [rules|] eqn:Hb.
  - split; [reflexivity|].
    induction (processStr documentText rules) as [|e es IH]; cbn; constructor; [|exact IH].
    unfold reports. rewrite toDiagnostic_message.
    destruct (severity_cases e) as [Hw He].
    destruct (rangeOf_shape e) as (H1 & H2 & H3 & H4).
    repeat split; auto.
  - unfold Solhint.build in Hb. destruct (get_rules (Solhint.fileConfig c)); congruence.
Qed.

(** ** Linter selection in [src/server.ts] *)

Lemma variantOf_switchLinter name rules :
  variantOf (switchLinter name rules) = variantNamed name.
Proof.
  unfold switchLinter, variantNamed.
  destruct (is_name name "solhint"); [reflexivity|].
  destruct (is_name name "solium"); reflexivity.
Qed.

Lemma variantOf_setIdeRules rules l :
  variantOf (Linter_setIdeRules rules <$> l) = variantOf l.
Proof. destruct l as [[?|?]|]; reflexivity. Qed.

(** C9. The legacy flag is looked at first: when [enabledSolium] is true the
    linter is solium whatever the [linter] option says; when it is false the
    [linter] option alone names the variant. *)
Theorem legacy_flag_checked_first (settings : Server.SoliditySettings) :
  Server.linterName settings
  = (if Server.enabledSolium settings then OptStr "solium" else Server.linter settings)
  /\ variantOf (Server.configuredLinter settings)
     = (if Server.enabledSolium settings then Solium_
        else variantNamed (Server.linter settings)).
Proof.
  split; [reflexivity|].
  unfold Server.configuredLinter.
  rewrite variantOf_setIdeRules, variantOf_switchLinter.
  unfold Server.linterName. destruct (Server.enabledSolium settings); reflexivity.
Qed.

(** ** [mergeErrors] *)

Lemma fold_concat_from (acc : list Diagnostic) (ls : list DiagArr) :
  fold_left (fun prev cur => prev ++ default [] cur) ls acc
  = acc ++ concat (map (default []) ls).
Proof.
  revert acc. induction ls as [|l ls IH]; intros acc; cbn.
  - by rewrite app_nil_r.
  - rewrite IH. by rewrite app_assoc.
Qed.

Lemma mergeErrors_concat_kept errors :
  Validation.mergeErrors errors = concat (keptLists errors).
Proof.
  unfold Validation.mergeErrors. rewrite fold_concat_from. cbn.
  f_equal. unfold keptLists.
  induction errors as [|i errors IH]; [reflexivity|].
  destruct i as [[|d ds]|]; cbn; [exact IH | by rewrite IH | exact IH].
Qed.

Lemma mergeErrors_concat_all errors :
  Validation.mergeErrors errors = concat (map (default []) errors).
Proof.
  rewrite mergeErrors_concat_kept. unfold keptLists.
  induction errors as [|i errors IH]; [reflexivity|].
  destruct i as [[|d ds]|]; cbn; [exact IH | by rewrite IH | exact IH].
Qed.

(** C8. [mergeErrors] drops the null and the empty lists and concatenates
    the others in call order; called on identical inputs it yields identical
    outputs. *)
Theorem mergeErrors_filters_concatenates (errors errors' : list DiagArr) :
  Validation.mergeErrors errors = concat (keptLists errors)
  /\ (errors = errors' -> Validation.mergeErrors errors = Validation.mergeErrors errors').
Proof.
  split; [apply mergeErrors_concat_kept|]. intros ->. reflexivity.
Qed.

(** ** The rule configuration *)

(** Precedence within one call of [build()]: a key of the file rules wins
    over the IDE rules, and those over what the static object holds. *)
Lemma build_precedence (statics : gmap string JsVal) (c : Solhint.ValidationConfig)
    (fileRules : JsVal) (k : string) :
  get_rules (Solhint.fileConfig c) = Some fileRules ->
  exists rules, Solhint.build statics c = Some rules
  /\ rules !! k
     = match list_to_map (M := gmap string JsVal) (own_props fileRules) !! k with
       | Some v => Some v
       | None =>
           match list_to_map (M := gmap string JsVal) (own_props (Solhint.ideRules c)) !! k with
           | Some v => Some v
           | None => statics !! k
           end
       end.
Proof.
  intros Hf. unfold Solhint.build. rewrite Hf. eexists; split; [reflexivity|].
  unfold Object_assign; cbn. rewrite !lookup_union.
  destruct (list_to_map (own_props fileRules) !! k),
           (list_to_map (own_props (Solhint.ideRules c)) !! k), (statics !! k); reflexivity.
Qed.

(** The instance of the specification: defaults [{"a": false}], IDE rules
    [{"a": true, "b": true}], file rules [{"b": false}]. *)
Example build_precedence_instance :
  Solhint.build {[ "a" := VBool false ]}
    {| Solhint.ideRules := VObj [("a", VBool true); ("b", VBool true)];
       Solhint.fileConfig := VObj [("rules", VObj [("b", VBool false)])];
       Solhint.pendingReads := 0 |}
  = Some (<[ "a" := VBool true ]> {[ "b" := VBool false ]}).
Proof. vm_compute. reflexivity. Qed.

(** C4 (the code departs from it). [build()] merges into the static
    [DEFAULT_RULES] object itself, so a rule an earlier call put there stays:
    with IDE rules [{"a": true}] at the first call and [{}] at the second,
    and no file rules, the second result still holds ["a": true], which a
    merge of the three current layers ([DEFAULT_RULES] as declared, [{}],
    [{}]) does not. *)
Theorem build_keeps_rules_of_earlier_calls :
  let c1 := Solhint.setIdeRules (VObj [("a", VBool true)]) (Solhint.newValidationConfig VNull) in
  let c2 := Solhint.setIdeRules (VObj []) c1 in
  exists rules1 rules2,
    Solhint.build Solhint.DEFAULT_RULES c1 = Some rules1
    /\ Solhint.build rules1 c2 = Some rules2
    /\ rules2 !! "a" = Some (VBool true)
    /\ Object_assign Solhint.DEFAULT_RULES [Solhint.ideRules c2; VObj []] !! "a" = None.
Proof.
  cbn. do 2 eexists. repeat split; vm_compute; reflexivity.
Qed.

Section ConfigFile.
Variable JSON_parse : string -> option JsVal.

(** A failed read: no exception, and [build()] then merges no file rule. *)
Lemma onConfigLoaded_read_failed data c statics :
  let r := Solhint.onConfigLoaded JSON_parse true data c in
  r.1 = Returned tt
  /\ Solhint.fileConfig r.2 = VBool false
  /\ Solhint.ideRules r.2 = Solhint.ideRules c
  /\ Solhint.build statics r.2 = Some (Object_assign statics [Solhint.ideRules c]).
Proof.
  cbn. repeat split. unfold Solhint.build, Object_assign; cbn.
  f_equal. apply map_eq; intros k. rewrite lookup_union, lookup_empty.
  by destruct (_ !! k).
Qed.

(** An unparsable file: the file layer stays as it was, which is
    [EMPTY_CONFIG] when no other read completed since [readFileConfig]. *)
Lemma onConfigLoaded_unparsable_keeps data c :
  JSON_parse data = None ->
  Solhint.fileConfig (Solhint.onConfigLoaded JSON_parse false data c).2 = Solhint.fileConfig c.
Proof. intros H. unfold Solhint.onConfigLoaded. rewrite H. reflexivity. Qed.
End ConfigFile.

(** C7 (the code departs from it). When the file is there and is not JSON,
    [JSON.parse] throws inside [onConfigLoaded], the callback of
    [fs.readFile], and nothing catches it. *)
Theorem onConfigLoaded_unparsable_throws
    (JSON_parse : string -> option JsVal) (data : string) (c : Solhint.ValidationConfig) :
  JSON_parse data = None ->
  (Solhint.onConfigLoaded JSON_parse false data c).1 = Thrown.
Proof. intros H. unfold Solhint.onConfigLoaded. rewrite H. reflexivity. Qed.

Lemma onConfigLoaded_unparsable_throws_witness :
  let JSON_parse := fun s : string => if String.eqb s "{" then None else Some VNull in
  JSON_parse "{" = None
  /\ (Solhint.onConfigLoaded JSON_parse false "{" (Solhint.newValidationConfig VNull)).1 = Thrown.
Proof.
  cbv zeta. split; [reflexivity|].
  apply (onConfigLoaded_unparsable_throws
           (fun s : string => if String.eqb s "{" then None else Some VNull)
           "{" (Solhint.newValidationConfig VNull)).
  reflexivity.
Defined.

(** ** The diagnostic pipeline *)

Section PipelineFacts.
Variable uriToFilePath : string -> string.
Variable JSON_parse : string -> option JsVal.
Variable processStr : string -> gmap string JsVal -> list Solhint.EngineMessage.
Variable soliumValidate : JsVal -> string -> string -> list Diagnostic.

Import Validation.

Local Abbreviation lintFile := (Validation.lintFile uriToFilePath processStr soliumValidate).
Local Abbreviation hop := (Validation.hop uriToFilePath processStr soliumValidate).
Local Abbreviation fileOf := (Validation.fileOf uriToFilePath).

Lemma mergeErrors_pair (a b : DiagArr) :
  mergeErrors [a; b] = default [] a ++ default [] b.
Proof. rewrite mergeErrors_concat_all. cbn. by rewrite app_nil_r. Qed.

(** [lintFile] changes the static rule object only. *)
Lemma lintFile_frame document st :
  let st' := (lintFile document st).2 in
  heap st' = heap st /\ opened st' = opened st /\ linter st' = linter st
  /\ lastCompileErrorsForDocument st' = lastCompileErrorsForDocument st
  /\ settings st' = settings st
  /\ validatingDocument st' = validatingDocument st
  /\ validatingAllDocuments st' = validatingAllDocuments st
  /\ timers st' = timers st /\ throttled st' = throttled st
  /\ jobs st' = jobs st /\ nextJob st' = nextJob st /\ joins st' = joins st
  /\ inits st' = inits st /\ sent st' = sent st /\ compiled st' = compiled st.
Proof.
  unfold Validation.lintFile. destruct (linter st) as [l|] eqn:El; cbn; [|by repeat split].
  destruct (Linter_validate _ _ _ _ _ _) as [[ds rules]|]; cbn; by repeat split.
Qed.

Lemma findJob_setStage j s st st' job :
  jobs st' = jobs st ->
  findJob j st = Some job ->
  findJob j (setStage j s st')
  = Some {| jid := jid job; jdoc := jdoc job; jstage := s |}.
Proof.
  unfold findJob, setStage; cbn. intros ->.
  induction (jobs st) as [|x xs IH]; cbn; [discriminate|].
  destruct (Nat.eqb (jid x) j) eqn:E; cbn.
  - rewrite E. by intros [= ->].
  - by rewrite E.
Qed.

Lemma findJob_chainSettled j st : findJob j (chainSettled j st) = None.
Proof.
  unfold findJob, chainSettled.
  assert (H : List.find (fun job => Nat.eqb (jid job) j)
                (List.filter (fun job => negb (Nat.eqb (jid job) j)) (jobs st)) = None).
  { induction (jobs st) as [|x xs IH]; cbn; [reflexivity|].
    destruct (Nat.eqb (jid x) j) eqn:E; cbn; [exact IH|]. by rewrite E. }
  destruct (existsb _ _); cbn; exact H.
Qed.

Local Abbreviation lintAndSendDiagnostics :=
  (Validation.lintAndSendDiagnostics uriToFilePath processStr soliumValidate).
Local Abbreviation settleAndRun :=
  (Validation.settleAndRun uriToFilePath processStr soliumValidate).
Local Abbreviation storeCompileErrors := (Validation.storeCompileErrors uriToFilePath).
Local Abbreviation lastCompileErrorsOf := (Validation.lastCompileErrorsOf uriToFilePath).
Local Abbreviation validateCompilation := (Validation.validateCompilation uriToFilePath).
Local Abbreviation step :=
  (Validation.step uriToFilePath JSON_parse processStr soliumValidate).

(** What [lintFile] returns depends on the linter, the static rule object
    and the documents only. *)
Lemma lintFile_ext document st1 st2 :
  linter st1 = linter st2 -> statics st1 = statics st2 -> heap st1 = heap st2 ->
  (lintFile document st1).1 = (lintFile document st2).1.
Proof.
  intros Hl Hs Hh. unfold Validation.lintFile, Validation.fileOf, uriOf, textOf.
  rewrite Hl, Hs, Hh. destruct (linter st2) as [l|]; [|reflexivity].
  by destruct (Linter_validate _ _ _ _ _ _) as [[ds rules]|].
Qed.

Lemma hop_at j st job :
  findJob j st = Some job ->
  hop j st
  = match jstage job with
    | Compiling => st
    | Store (Returned errors) =>
        setStage j (Append (Returned errors)) (storeCompileErrors (jdoc job) errors st)
    | Store Thrown => setStage j (Append Thrown) st
    | Append (Returned errors) =>
        match lintFile (jdoc job) st with
        | (Returned lint, st) => setStage j (Send (Returned (errors, lint))) st
        | (Thrown, st) => setStage j (Send Thrown) st
        end
    | Append Thrown => setStage j (Send Thrown) st
    | Send (Returned (errors, lint)) =>
        setStage j Flag (sendDiagnostics (uriOf (jdoc job) st) [errors; Some lint] st)
    | Send Thrown => setStage j Flag st
    | Flag => chainSettled j (validateFlagToFalse st)
    end.
Proof. intros H. unfold Validation.hop. rewrite H. reflexivity. Qed.

Lemma settle_at j o st job :
  findJob j st = Some job -> jstage job = Compiling ->
  settle j o st = setStage j (Store o) st.
Proof. intros H Hs. unfold settle. rewrite H. destruct job; cbn in *; by subst. Qed.

(** A rejected compile promise: the rejection reaches the last reaction
    without storing or sending anything. *)
Lemma settleAndRun_rejected j st job :
  findJob j st = Some job -> jstage job = Compiling ->
  settleAndRun j Thrown st
  = chainSettled j (validateFlagToFalse
      (setStage j Flag (setStage j (Send Thrown) (setStage j (Append Thrown)
        (setStage j (Store Thrown) st))))).
Proof.
  intros Hf Hs. unfold Validation.settleAndRun.
  rewrite (settle_at _ _ _ _ Hf Hs).
  pose proof (findJob_setStage j (Store Thrown) st st job eq_refl Hf) as F0.
  rewrite (hop_at _ _ _ F0); cbn [jstage jdoc].
  pose proof (findJob_setStage j (Append Thrown) _ _ _ eq_refl F0) as F1.
  cbn [jid jdoc jstage] in F1.
  rewrite (hop_at _ _ _ F1); cbn [jstage jdoc].
  pose proof (findJob_setStage j (Send Thrown) _ _ _ eq_refl F1) as F2.
  cbn [jid jdoc jstage] in F2.
  rewrite (hop_at _ _ _ F2); cbn [jstage jdoc].
  pose proof (findJob_setStage j Flag _ _ _ eq_refl F2) as F3.
  cbn [jid jdoc jstage] in F3.
  rewrite (hop_at _ _ _ F3); cbn [jstage jdoc].
  reflexivity.
Qed.

(** A fulfilled compile promise whose lint pass returns: store, lint,
    send, clear the flag. *)
Lemma settleAndRun_fulfilled j st job errors L :
  findJob j st = Some job -> jstage job = Compiling ->
  (lintFile (jdoc job) st).1 = Returned L ->
  exists st3,
    settleAndRun j (Returned errors) st = chainSettled j (validateFlagToFalse st3)
    /\ lastCompileErrorsForDocument st3
       = <[fileOf (jdoc job) st := errors]> (lastCompileErrorsForDocument st)
    /\ sent st3
       = sent st ++ [{| diagnostics := mergeErrors [errors; Some L];
                        p_uri := uriOf (jdoc job) st |}].
Proof.
  intros Hf Hs HL. unfold Validation.settleAndRun.
  rewrite (settle_at _ _ _ _ Hf Hs).
  pose proof (findJob_setStage j (Store (Returned errors)) st st job eq_refl Hf) as F0.
  rewrite (hop_at _ _ _ F0); cbn [jstage jdoc].
  set (st1 := Validation.storeCompileErrors _ _ _ _).
  assert (F1 := findJob_setStage j (Append (Returned errors)) _ st1 _ eq_refl F0).
  cbn [jid jdoc jstage] in F1.
  rewrite (hop_at _ _ _ F1); cbn [jstage jdoc].
  set (st1' := setStage j (Append (Returned errors)) st1) in *.
  assert (HL' : (lintFile (jdoc job) st1').1 = Returned L).
  { rewrite <- HL. by apply lintFile_ext. }
  destruct (lintFile_frame (jdoc job) st1') as
    (Hh & _ & _ & Hc & _ & _ & _ & _ & _ & Hj & _ & _ & _ & Hsent & _).
  destruct (lintFile (jdoc job) st1') as [r st2]; cbn [fst snd] in Hj;
    cbn in HL', Hh, Hc, Hsent. subst r.
  assert (F2 := findJob_setStage j (Send (Returned (errors, L))) st1' st2 _ Hj F1).
  cbn [jid jdoc jstage] in F2.
  rewrite (hop_at _ _ _ F2); cbn [jstage jdoc].
  match goal with |- context [Validation.hop _ _ _ j (setStage j Flag ?s)] =>
    assert (F3 := findJob_setStage j Flag _ s _ eq_refl F2);
    cbn [jid jdoc jstage] in F3;
    rewrite (hop_at _ _ _ F3); cbn [jstage jdoc] end.
  eexists; split; [reflexivity|].
  clear F0 F1 F2 F3 Hj Hf HL. subst st1' st1.
  unfold sendDiagnostics, uriOf, Validation.fileOf, uriOf in *.
  destruct st, st2; cbn in *. subst. split; reflexivity.
Qed.

Lemma chainSettled_frame j st :
  let st' := chainSettled j st in
  heap st' = heap st /\ linter st' = linter st /\ statics st' = statics st
  /\ lastCompileErrorsForDocument st' = lastCompileErrorsForDocument st
  /\ validatingDocument st' = validatingDocument st
  /\ sent st' = sent st /\ compiled st' = compiled st.
Proof. unfold chainSettled. destruct (existsb _ _); cbn; by repeat split. Qed.

(** C1, as amended. The publish at the end of a [validateCompilation]
    chain sends the compile diagnostics the chain has just stored in the
    cache, then the lint diagnostics; the publish of the throttled
    lint-only pass sends the lint diagnostics first and the cached compile
    diagnostics after them. *)
Theorem publish_order_of_the_two_passes :
  (forall document st L,
      (lintFile document st).1 = Returned L ->
      sent (lintAndSendDiagnostics document st).2
      = sent st ++ [{| diagnostics := L ++ lastCompileErrorsOf document st;
                       p_uri := uriOf document st |}])
  /\ (forall j job errors st L,
      findJob j st = Some job -> jstage job = Compiling ->
      (lintFile (jdoc job) st).1 = Returned L ->
      let st' := settleAndRun j (Returned errors) st in
      lastCompileErrorsForDocument st' !! fileOf (jdoc job) st = Some errors
      /\ sent st'
         = sent st ++ [{| diagnostics := default [] errors ++ L;
                          p_uri := uriOf (jdoc job) st |}]).
Proof.
  split.
  - intros document st L HL. unfold Validation.lintAndSendDiagnostics.
    destruct (lintFile_frame document st) as
      (Hh & _ & _ & Hc & _ & _ & _ & _ & _ & _ & _ & _ & _ & Hsent & _).
    destruct (lintFile document st) as [r st1]; cbn [fst snd] in *. subst r.
    unfold sendDiagnostics, Validation.lastCompileErrorsOf, Validation.fileOf, uriOf in *.
    rewrite mergeErrors_pair.
    destruct st, st1; cbn in *. subst. reflexivity.
  - intros j job errors st L Hf Hs HL st'.
    destruct (settleAndRun_fulfilled j st job errors L Hf Hs HL) as (st3 & E & Hc & Hsent).
    subst st'. rewrite E.
    destruct (chainSettled_frame j (validateFlagToFalse st3)) as (_ & _ & _ & Hc' & _ & Hsent' & _).
    rewrite Hc', Hsent'.
    change (lastCompileErrorsForDocument (validateFlagToFalse st3))
      with (lastCompileErrorsForDocument st3).
    change (sent (validateFlagToFalse st3)) with (sent st3).
    rewrite Hc, Hsent, mergeErrors_pair. split; [apply lookup_insert_eq | reflexivity].
Qed.

(** C2, as amended. When the compile promise is rejected, the chain stores
    nothing and sends nothing, and the last reaction clears the
    per-document flag: the cache and the trace of publishes are as before,
    [validatingDocument] is false and the chain is over. *)
Theorem rejected_compile_keeps_cache_clears_flag j job st :
  findJob j st = Some job -> jstage job = Compiling ->
  let st' := settleAndRun j Thrown st in
  lastCompileErrorsForDocument st' = lastCompileErrorsForDocument st
  /\ sent st' = sent st
  /\ validatingDocument st' = false
  /\ findJob j st' = None.
Proof.
  intros Hf Hs st'. subst st'. rewrite (settleAndRun_rejected j st job Hf Hs).
  split_and!; [ | | | apply findJob_chainSettled ];
    match goal with |- context [chainSettled j ?s] =>
      destruct (chainSettled_frame j s) as (_ & _ & _ & Hc & Hv & Hsent & _) end.
  - rewrite Hc. reflexivity.
  - rewrite Hsent. reflexivity.
  - rewrite Hv. reflexivity.
Qed.

(** C3, as amended. Closing an open document publishes an empty list for
    its URI and leaves the compile-diagnostic cache as it is. *)
Theorem close_publishes_empty_keeps_cache document st :
  document ∈ opened st ->
  let st' := step (DidClose document) st in
  sent st' = sent st ++ [{| diagnostics := []; p_uri := uriOf document st |}]
  /\ lastCompileErrorsForDocument st' = lastCompileErrorsForDocument st
  /\ document ∉ opened st'.
Proof.
  intros Hin. cbn. rewrite bool_decide_eq_true_2 by exact Hin.
  unfold onDidClose; cbn. split_and!; try reflexivity.
  rewrite list_elem_of_In, filter_In. intros [_ H].
  by rewrite Nat.eqb_refl in H.
Qed.


(** A compiler call that throws instead of returning a promise: no chain is
    started, [validateCompilation] throws in turn, and the flag it has set
    stays set. *)
Lemma validateCompilation_compiler_throws document st :
  enabledAsYouTypeErrorCheck st = true ->
  (validateCompilation true document st).1 = Thrown
  /\ validatingDocument (validateCompilation true document st).2 = true
  /\ jobs (validateCompilation true document st).2 = jobs st.
Proof.
  intros H. unfold Validation.validateCompilation. rewrite H. by repeat split.
Qed.

End PipelineFacts.

(** ** At most one whole-workspace pass *)

Section Passes.
Variable uriToFilePath : string -> string.
Variable JSON_parse : string -> option JsVal.
Variable processStr : string -> gmap string JsVal -> list Solhint.EngineMessage.
Variable soliumValidate : JsVal -> string -> string -> list Diagnostic.

Import Validation.

Local Abbreviation lintFile := (Validation.lintFile uriToFilePath processStr soliumValidate).
Local Abbreviation hop := (Validation.hop uriToFilePath processStr soliumValidate).
Local Abbreviation lintAndSendDiagnostics :=
  (Validation.lintAndSendDiagnostics uriToFilePath processStr soliumValidate).
Local Abbreviation validateCompilation := (Validation.validateCompilation uriToFilePath).
Local Abbreviation mapValidateCompilation := (Validation.mapValidateCompilation uriToFilePath).
Local Abbreviation validateAllDocuments := (Validation.validateAllDocuments uriToFilePath).
Local Abbreviation startValidation := (Validation.startValidation uriToFilePath).
Local Abbreviation step :=
  (Validation.step uriToFilePath JSON_parse processStr soliumValidate).
Local Abbreviation run :=
  (Validation.run uriToFilePath JSON_parse processStr soliumValidate).































End Passes.

(** ** The properties in the sample world *)

Lemma mergeErrors_filters_concatenates_witness :
  let errors := [Some [Sample.compileDiagnostic]; None; Some []; Some [Sample.lintDiagnostic]] in
  errors = errors
  /\ Validation.mergeErrors errors = [Sample.compileDiagnostic; Sample.lintDiagnostic].
Proof.
  cbv zeta. split; [reflexivity|].
  destruct (mergeErrors_filters_concatenates
              [Some [Sample.compileDiagnostic]; None; Some []; Some [Sample.lintDiagnostic]]
              [Some [Sample.compileDiagnostic]; None; Some []; Some [Sample.lintDiagnostic]])
    as [H _].
  rewrite H. reflexivity.
Defined.

(** C1, as stated, fails on the lint-only pass: with the cached compile
    list [C = [compileDiagnostic]] and the fresh lint list
    [L = [lintDiagnostic]] it publishes [L ++ C], which is not [C ++ L]. *)
Lemma lint_pass_publishes_lint_first :
  let st := Sample.run Sample.compiledOnce Validation.initial in
  let C := Validation.lastCompileErrorsOf Sample.uriToFilePath 0 st in
  let L := [Sample.lintDiagnostic] in
  C = [Sample.compileDiagnostic]
  /\ (Validation.lintFile Sample.uriToFilePath Sample.processStr Sample.soliumValidate 0 st).1
     = Returned L
  /\ Validation.sent
       (Validation.lintAndSendDiagnostics Sample.uriToFilePath Sample.processStr
          Sample.soliumValidate 0 st).2
     = Validation.sent st
       ++ [{| Validation.diagnostics := L ++ C; Validation.p_uri := "file:///a.sol" |}]
  /\ L ++ C <> C ++ L.
Proof. cbv zeta. split_and!; [vm_compute; reflexivity ..|]. vm_compute. discriminate. Qed.

Lemma publish_order_of_the_two_passes_witness :
  let st := Sample.run Sample.compiledOnce Validation.initial in
  let st1 := Sample.run Sample.secondStarted Validation.initial in
  let job := {| Validation.jid := 1; Validation.jdoc := 0; Validation.jstage := Validation.Compiling |} in
  ((Validation.lintFile Sample.uriToFilePath Sample.processStr Sample.soliumValidate 0 st).1
   = Returned [Sample.lintDiagnostic]
   /\ Validation.sent
        (Validation.lintAndSendDiagnostics Sample.uriToFilePath Sample.processStr
           Sample.soliumValidate 0 st).2
      = Validation.sent st
        ++ [{| Validation.diagnostics :=
                 [Sample.lintDiagnostic]
                 ++ Validation.lastCompileErrorsOf Sample.uriToFilePath 0 st;
               Validation.p_uri := Validation.uriOf 0 st |}])
  /\ (Validation.findJob 1 st1 = Some job
      /\ Validation.jstage job = Validation.Compiling
      /\ (Validation.lintFile Sample.uriToFilePath Sample.processStr Sample.soliumValidate
            (Validation.jdoc job) st1).1 = Returned [Sample.lintDiagnostic]
      /\ Validation.sent
           (Validation.settleAndRun Sample.uriToFilePath Sample.processStr Sample.soliumValidate
              1 (Returned (Some [Sample.compileDiagnostic])) st1)
         = Validation.sent st1
           ++ [{| Validation.diagnostics := [Sample.compileDiagnostic] ++ [Sample.lintDiagnostic];
                  Validation.p_uri := Validation.uriOf 0 st1 |}]).
Proof.
  cbv zeta.
  destruct (publish_order_of_the_two_passes
              Sample.uriToFilePath Sample.processStr Sample.soliumValidate) as [Hlint Hchain].
  split.
  - split; [vm_compute; reflexivity|]. apply Hlint. vm_compute; reflexivity.
  - split; [vm_compute; reflexivity|]. split; [reflexivity|].
    split; [vm_compute; reflexivity|].
    refine (proj2 (Hchain 1%nat
              {| Validation.jid := 1; Validation.jdoc := 0; Validation.jstage := Validation.Compiling |}
              (Some [Sample.compileDiagnostic]) _ [Sample.lintDiagnostic] _ _ _));
      [vm_compute; reflexivity | reflexivity | vm_compute; reflexivity].
Defined.

(** C2, as stated, fails: a compilation of [a.sol] is rejected while the
    cache holds the result of the one before; afterwards the cache still
    holds that result, not an empty list. *)
Lemma rejected_compile_leaves_stale_entry :
  let st := Sample.run Sample.thenRejected Validation.initial in
  Validation.lastCompileErrorsForDocument st !! "/a.sol" = Some (Some [Sample.compileDiagnostic])
  /\ Validation.lastCompileErrorsForDocument st !! "/a.sol" <> Some (Some [])
  /\ Validation.compiled st
     = [("/a.sol", "contract A { }"); ("/a.sol", "contract A { ")].
Proof. cbv zeta. split_and!; [vm_compute; reflexivity | vm_compute; discriminate | vm_compute; reflexivity]. Qed.

Lemma rejected_compile_keeps_cache_clears_flag_witness :
  let st := Sample.run Sample.secondStarted Validation.initial in
  let job := {| Validation.jid := 1; Validation.jdoc := 0; Validation.jstage := Validation.Compiling |} in
  let st' := Validation.settleAndRun Sample.uriToFilePath Sample.processStr Sample.soliumValidate
               1 Thrown st in
  Validation.findJob 1 st = Some job
  /\ Validation.jstage job = Validation.Compiling
  /\ Validation.lastCompileErrorsForDocument st' = Validation.lastCompileErrorsForDocument st
  /\ Validation.sent st' = Validation.sent st
  /\ Validation.validatingDocument st' = false
  /\ Validation.findJob 1 st' = None.
Proof.
  cbv zeta. split; [vm_compute; reflexivity|]. split; [reflexivity|].
  apply (rejected_compile_keeps_cache_clears_flag
           Sample.uriToFilePath Sample.processStr Sample.soliumValidate 1%nat
           {| Validation.jid := 1; Validation.jdoc := 0; Validation.jstage := Validation.Compiling |});
    [vm_compute; reflexivity | reflexivity].
Defined.

(** C3, as stated, fails: after [a.sol] is closed the cache still holds its
    compile diagnostics, and when the same URI is opened again the first
    publish carries them. *)
Lemma close_keeps_cached_entry :
  let st := Sample.step (Validation.DidClose 0) (Sample.run Sample.compiledOnce Validation.initial) in
  let st' := Sample.step (Validation.DidOpen "file:///a.sol" "contract A { }" false) st in
  Validation.lastCompileErrorsForDocument st !! "/a.sol" = Some (Some [Sample.compileDiagnostic])
  /\ last (Validation.sent st)
     = Some {| Validation.diagnostics := []; Validation.p_uri := "file:///a.sol" |}
  /\ last (Validation.sent st')
     = Some {| Validation.diagnostics := [Sample.lintDiagnostic; Sample.compileDiagnostic];
               Validation.p_uri := "file:///a.sol" |}.
Proof. cbv zeta. split_and!; vm_compute; reflexivity. Qed.

Lemma close_publishes_empty_keeps_cache_witness :
  let st := Sample.run Sample.compiledOnce Validation.initial in
  let st' := Sample.step (Validation.DidClose 0) st in
  0%nat ∈ Validation.opened st
  /\ Validation.sent st'
     = Validation.sent st
       ++ [{| Validation.diagnostics := []; Validation.p_uri := Validation.uriOf 0 st |}]
  /\ Validation.lastCompileErrorsForDocument st' = Validation.lastCompileErrorsForDocument st
  /\ 0%nat ∉ Validation.opened st'.
Proof.
  cbv zeta.
  assert (H : 0%nat ∈ Validation.opened (Sample.run Sample.compiledOnce Validation.initial))
    by (vm_compute; left).
  split; [exact H|].
  exact (close_publishes_empty_keeps_cache Sample.uriToFilePath Sample.JSON_parse
           Sample.processStr Sample.soliumValidate 0%nat _ H).
Defined.


(** Disabling compile checking by a configuration change leaves it disabled
    when the handler returns, whatever the state before. *)
Lemma configuration_disables (uriToFilePath : string -> string) s throws st :
  Validation.Settings.enabledAsYouTypeCompilationErrorCheck s = false ->
  Validation.enabledAsYouTypeErrorCheck
    (Validation.onDidChangeConfiguration uriToFilePath s throws st).2 = false.
Proof.
  intros Hs. unfold Validation.onDidChangeConfiguration, Validation.startValidation.
  set (st0 := Validation.set_linter _ (Validation.set_linter _ (Validation.set_settings s st))).
  assert (H0 : Validation.enabledAsYouTypeErrorCheck st0 = false) by exact Hs.
  rewrite H0. unfold Validation.validateAllDocuments.
  destruct (Validation.validatingAllDocuments st0); [exact H0|].
  set (st1 := Validation.set_validatingAllDocuments true st0).
  assert (H1 : Validation.enabledAsYouTypeErrorCheck st1 = false) by exact H0.
  assert (Hmap : forall documents,
             Validation.mapValidateCompilation uriToFilePath throws documents st1
             = (Returned (map (fun _ => None) documents), st1)).
  { induction documents as [|d ds IH]; cbn; [reflexivity|].
    unfold Validation.validateCompilation. rewrite H1, IH. reflexivity. }
  rewrite Hmap.
  assert (Hnone : omap id (map (fun _ : nat => @None nat) (Validation.opened st1)) = []).
  { induction (Validation.opened st1) as [|d ds IH]; cbn; [reflexivity | exact IH]. }
  rewrite Hnone. exact H0.
Qed.

(** A pass over two documents, the first compilation rejected: the flag
    stays set until the chain of the second has run, too. *)
Example rejected_chain_keeps_workspace_flag :
  let st := Sample.run Sample.passOneRejected Validation.initial in
  let st1 := Sample.step (Validation.Reaction 0) st in
  let st2 := Sample.run [Validation.CompileSettles 1 (Returned (Some []));
                         Validation.Reaction 1; Validation.Reaction 1;
                         Validation.Reaction 1; Validation.Reaction 1] st1 in
  (Validation.joins st, Validation.validatingAllDocuments st) = ([[0; 1]%nat], true)
  /\ (Validation.joins st1, Validation.validatingAllDocuments st1) = ([[1%nat]], true)
  /\ (Validation.joins st2, Validation.validatingAllDocuments st2) = ([], false).
Proof. cbv zeta. split_and!; vm_compute; reflexivity. Qed.


(** * Further properties of the code *)

(** ** [mergeErrors] and the cache *)

Lemma concat_map_default_app (a b : list DiagArr) :
  concat (map (default []) (a ++ b))
  = concat (map (default []) a) ++ concat (map (default []) b).
Proof. by rewrite map_app, concat_app. Qed.

(** X1. [mergeErrors] of arguments given in two groups is the result for the
    first group followed by the result for the second. *)
Theorem mergeErrors_app (a b : list DiagArr) :
  Validation.mergeErrors (a ++ b) = Validation.mergeErrors a ++ Validation.mergeErrors b.
Proof. rewrite !mergeErrors_concat_all. apply concat_map_default_app. Qed.

(** X2. [mergeErrors] neither loses nor invents a diagnostic: the merged
    list holds exactly the members of the argument arrays. *)
Theorem mergeErrors_members (errors : list DiagArr) (d : Diagnostic) :
  d ∈ Validation.mergeErrors errors <-> exists l, Some l ∈ errors /\ d ∈ l.
Proof.
  rewrite mergeErrors_concat_all. induction errors as [|i errors IH]; cbn.
  - split; [intros H; by apply elem_of_nil in H | intros (l & H & _); by apply elem_of_nil in H].
  - rewrite elem_of_app, IH. split.
    + intros [H|(l & Hl & Hd)].
      * destruct i as [l|]; cbn in H; [|by apply elem_of_nil in H].
        exists l. split; [by left | exact H].
      * exists l. split; [by right | exact Hd].
    + intros (l & Hl & Hd). apply elem_of_cons in Hl as [<-|Hl]; [by left|].
      right. by exists l.
Qed.

Section MorePipeline.
Variable uriToFilePath : string -> string.
Variable JSON_parse : string -> option JsVal.
Variable processStr : string -> gmap string JsVal -> list Solhint.EngineMessage.
Variable soliumValidate : JsVal -> string -> string -> list Diagnostic.

Import Validation.

Local Abbreviation lintFile := (Validation.lintFile uriToFilePath processStr soliumValidate).
Local Abbreviation hop := (Validation.hop uriToFilePath processStr soliumValidate).
Local Abbreviation fileOf := (Validation.fileOf uriToFilePath).
Local Abbreviation lintAndSendDiagnostics :=
  (Validation.lintAndSendDiagnostics uriToFilePath processStr soliumValidate).
Local Abbreviation settleAndRun :=
  (Validation.settleAndRun uriToFilePath processStr soliumValidate).
Local Abbreviation storeCompileErrors := (Validation.storeCompileErrors uriToFilePath).
Local Abbreviation lastCompileErrorsOf := (Validation.lastCompileErrorsOf uriToFilePath).
Local Abbreviation validateCompilation := (Validation.validateCompilation uriToFilePath).
Local Abbreviation mapValidateCompilation := (Validation.mapValidateCompilation uriToFilePath).
Local Abbreviation validateAllDocuments := (Validation.validateAllDocuments uriToFilePath).
Local Abbreviation startValidation := (Validation.startValidation uriToFilePath).
Local Abbreviation onDidChangeConfiguration :=
  (Validation.onDidChangeConfiguration uriToFilePath).
Local Abbreviation onDidChangeContent :=
  (Validation.onDidChangeContent uriToFilePath processStr soliumValidate).
Local Abbreviation step :=
  (Validation.step uriToFilePath JSON_parse processStr soliumValidate).

(** X3. What is stored for a document is what is read back for every
    document of the same path ([null] read back as the empty list); the
    entries of other paths are untouched. *)
Theorem store_then_lookup document document' errors st :
  lastCompileErrorsOf document' (storeCompileErrors document errors st)
  = if decide (fileOf document' st = fileOf document st)
    then default [] errors
    else lastCompileErrorsOf document' st.
Proof.
  unfold Validation.lastCompileErrorsOf, Validation.storeCompileErrors, Validation.fileOf, uriOf.
  cbn. case_decide as E.
  - rewrite E, lookup_insert_eq. by destruct errors.
  - by rewrite lookup_insert_ne.
Qed.

Lemma keepsData_refl st : keepsData st st.
Proof. by repeat split. Qed.

Lemma keepsData_trans st1 st2 st3 : keepsData st1 st2 -> keepsData st2 st3 -> keepsData st1 st3.
Proof.
  intros (A1 & A2 & A3 & A4 & A5 & A6 & A7 & A8) (B1 & B2 & B3 & B4 & B5 & B6 & B7 & B8).
  repeat split; congruence.
Qed.

Lemma validateCompilation_keepsData throws document st :
  keepsData st (validateCompilation throws document st).2.
Proof.
  unfold Validation.validateCompilation, compileFile.
  destruct (enabledAsYouTypeErrorCheck st); [|apply keepsData_refl].
  destruct throws; by repeat split.
Qed.

Lemma mapValidateCompilation_keepsData throws documents st :
  keepsData st (mapValidateCompilation throws documents st).2.
Proof.
  revert st. induction documents as [|d ds IH]; intros st; cbn; [apply keepsData_refl|].
  pose proof (validateCompilation_keepsData (throws d) d st) as K1.
  destruct (validateCompilation (throws d) d st) as [[p|] st1]; cbn [snd] in *; [|exact K1].
  pose proof (IH st1) as K2.
  destruct (mapValidateCompilation throws ds st1) as [[ps|] st2]; cbn [snd] in *;
    by eapply keepsData_trans.
Qed.

Lemma validateAllDocuments_keepsData throws st :
  keepsData st (validateAllDocuments throws st).2.
Proof.
  unfold Validation.validateAllDocuments.
  destruct (validatingAllDocuments st); [apply keepsData_refl|].
  set (st0 := set_validatingAllDocuments true st).
  pose proof (mapValidateCompilation_keepsData throws (opened st0) st0) as K.
  destruct (mapValidateCompilation throws (opened st0) st0) as [[ps|] st1]; cbn [snd] in *;
    [|exact K].
  destruct (omap id ps); exact K.
Qed.

Lemma startValidation_keepsData throws st :
  keepsData st (startValidation throws st).2.
Proof.
  unfold Validation.startValidation. destruct (enabledAsYouTypeErrorCheck st);
    [by repeat split | apply validateAllDocuments_keepsData].
Qed.

(** X4. A configuration change selects the linter by the [linter] option
    alone and builds it anew: a solhint linter starts from the rules of the
    settings with the file layer reset and one read of the file pending,
    whatever linter was there before; and the handler publishes nothing. *)
Theorem configuration_builds_fresh_linter s throws st :
  let st' := (onDidChangeConfiguration s throws st).2 in
  linter st'
  = Linter_setIdeRules (Settings.linterDefaultRules s)
      <$> switchLinter (Settings.linter s) (Settings.linterDefaultRules s)
  /\ variantOf (linter st') = variantNamed (Settings.linter s)
  /\ (forall config, linter st' = Some (SolhintService config) ->
        Solhint.fileConfig config = Solhint.EMPTY_CONFIG /\ Solhint.pendingReads config = 1%nat)
  /\ settings st' = s
  /\ sent st' = sent st.
Proof.
  intros st'. subst st'. unfold Validation.onDidChangeConfiguration.
  match goal with |- context [Validation.startValidation _ throws ?s0] =>
    destruct (startValidation_keepsData throws s0) as (_ & _ & Hl & _ & _ & Hs & _ & Hsent) end.
  rewrite Hl, Hs, Hsent. cbn. split_and!; try reflexivity.
  - by rewrite variantOf_setIdeRules, variantOf_switchLinter.
  - intros config. unfold switchLinter.
    destruct (is_name (Settings.linter s) "solhint"); cbn; [by intros [= <-]|].
    destruct (is_name (Settings.linter s) "solium"); cbn; by intros [=].
Qed.



Lemma quiet_refl st : quiet st st.
Proof. by repeat split. Qed.

Lemma quiet_trans st1 st2 st3 : quiet st1 st2 -> quiet st2 st3 -> quiet st1 st3.
Proof.
  intros (A1 & A2 & A3 & A4) (B1 & B2 & B3 & B4). unfold enabledAsYouTypeErrorCheck in *.
  split_and!; [congruence | congruence | auto |].
  intros H. rewrite B4, A4; [reflexivity | exact H | by rewrite A2].
Qed.

Lemma quiet_same st st' :
  lastCompileErrorsForDocument st' = lastCompileErrorsForDocument st ->
  settings st' = settings st ->
  validatingDocument st' = validatingDocument st ->
  compiled st' = compiled st ->
  quiet st st'.
Proof. intros H1 H2 H3 H4. split_and!; auto. congruence. Qed.

Lemma lintFile_quiet document st : quiet st (lintFile document st).2.
Proof.
  destruct (lintFile_frame uriToFilePath processStr soliumValidate document st) as
    (_ & _ & _ & Hc & Hs & Hv & _ & _ & _ & _ & _ & _ & _ & _ & Hcomp).
  by apply quiet_same.
Qed.

Lemma lintAndSendDiagnostics_quiet document st :
  quiet st (lintAndSendDiagnostics document st).2.
Proof.
  unfold Validation.lintAndSendDiagnostics.
  pose proof (lintFile_quiet document st) as Q.
  destruct (lintFile document st) as [[L|] st1]; cbn [snd] in *; [|exact Q].
  eapply quiet_trans; [exact Q | by apply quiet_same].
Qed.

Lemma validateCompilation_quiet throws document st :
  quiet st (validateCompilation throws document st).2.
Proof.
  unfold Validation.validateCompilation, compileFile.
  destruct (enabledAsYouTypeErrorCheck st) eqn:E; [|apply quiet_refl].
  destruct throws; cbn; split_and!; try reflexivity; congruence.
Qed.

Lemma mapValidateCompilation_quiet throws documents st :
  quiet st (mapValidateCompilation throws documents st).2.
Proof.
  revert st. induction documents as [|d ds IH]; intros st; cbn; [apply quiet_refl|].
  pose proof (validateCompilation_quiet (throws d) d st) as Q1.
  destruct (validateCompilation (throws d) d st) as [[p|] st1]; cbn [snd] in *; [|exact Q1].
  pose proof (IH st1) as Q2.
  destruct (mapValidateCompilation throws ds st1) as [[ps|] st2]; cbn [snd] in *;
    by eapply quiet_trans.
Qed.

Lemma validateAllDocuments_quiet throws st :
  quiet st (validateAllDocuments throws st).2.
Proof.
  unfold Validation.validateAllDocuments.
  destruct (validatingAllDocuments st); [apply quiet_refl|].
  set (st0 := set_validatingAllDocuments true st).
  assert (Q0 : quiet st st0) by by apply quiet_same.
  pose proof (mapValidateCompilation_quiet throws (opened st0) st0) as Q.
  destruct (mapValidateCompilation throws (opened st0) st0) as [[ps|] st1]; cbn [snd] in *;
    [|by eapply quiet_trans].
  destruct (omap id ps); cbn [snd];
    (eapply quiet_trans; [exact Q0|]); (eapply quiet_trans; [exact Q|]); by apply quiet_same.
Qed.

Lemma startValidation_quiet throws st : quiet st (startValidation throws st).2.
Proof.
  unfold Validation.startValidation. destruct (enabledAsYouTypeErrorCheck st);
    [by apply quiet_same | apply validateAllDocuments_quiet].
Qed.

Lemma onDidChangeContent_quiet inWindow document st :
  quiet st (onDidChangeContent inWindow document st).2.
Proof.
  unfold Validation.onDidChangeContent, throttle_call.
  set (st0 := if negb (validatingDocument st) && negb (validatingAllDocuments st)
              then _ else st).
  assert (Q0 : quiet st st0).
  { subst st0. destruct (_ && _); [|apply quiet_refl]. by split_and!. }
  destruct inWindow; cbn [snd].
  - eapply quiet_trans; [exact Q0 | by apply quiet_same].
  - eapply quiet_trans; [exact Q0 | apply lintAndSendDiagnostics_quiet].
Qed.

Lemma setStage_quiet j s st : quiet st (setStage j s st).
Proof. by apply quiet_same. Qed.

(** Every turn of the event loop but a reaction is quiet, but for the
    settings a configuration change brings. *)
Lemma step_quiet e st :
  (forall j, e <> Reaction j) ->
  (forall s throws, e <> DidChangeConfiguration s throws) ->
  quiet st (step e st).
Proof.
  intros Hr Hc.
  destruct e as [|u text inWindow|document text inWindow|document| |k throws
                |s throws|ok throws|j o|j| |err data]; cbn [Validation.step].
  - unfold onInitialize. destruct (linter st); [apply quiet_refl | by apply quiet_same].
  - eapply quiet_trans; [|apply onDidChangeContent_quiet]. by apply quiet_same.
  - destruct (bool_decide _); [|apply quiet_refl].
    eapply quiet_trans; [|apply onDidChangeContent_quiet]. by apply quiet_same.
  - destruct (bool_decide _); [by apply quiet_same | apply quiet_refl].
  - destruct (throttled st) as [document|]; [|apply quiet_refl].
    eapply quiet_trans; [|apply lintAndSendDiagnostics_quiet]. by apply quiet_same.
  - destruct (timers st !! k) as [document|]; [|apply quiet_refl].
    eapply quiet_trans; [|apply validateCompilation_quiet]. by apply quiet_same.
  - by destruct (Hc s throws).
  - destruct (inits st) as [|n]; [apply quiet_refl|].
    destruct ok; [|by apply quiet_same].
    eapply quiet_trans; [|apply validateAllDocuments_quiet]. by apply quiet_same.
  - unfold settle. destruct (findJob j st) as [[? ? []]|];
      first [apply setStage_quiet | apply quiet_refl].
  - by destruct (Hr j).
  - destruct (linter st) as [[config|rules]|]; first [apply quiet_refl | by apply quiet_same].
  - destruct (linter st) as [[config|rules]|]; try apply quiet_refl.
    destruct (Solhint.pendingReads config); [apply quiet_refl | by apply quiet_same].
Qed.

Lemma configuration_quiet_but_settings s throws st :
  let st' := (onDidChangeConfiguration s throws st).2 in
  lastCompileErrorsForDocument st' = lastCompileErrorsForDocument st
  /\ (validatingDocument st = true -> validatingDocument st' = true)
  /\ compiled st' = compiled st.
Proof.
  unfold Validation.onDidChangeConfiguration. cbv zeta.
  match goal with |- context [Validation.startValidation _ throws ?s0] => set (st0 := s0) end.
  destruct (startValidation_quiet throws st0) as (Q1 & Q2 & Q3 & Q4).
  split_and!; [exact Q1 | exact Q3 |].
  unfold Validation.startValidation in *.
  destruct (enabledAsYouTypeErrorCheck st0) eqn:E; [reflexivity | by apply Q4].
Qed.

(** The reactions of a chain, stage by stage. *)
Lemma hop_effect j st :
  match findJob j st with
  | None => hop j st = st
  | Some job =>
      match jstage job with
      | Store (Returned errors) =>
          lastCompileErrorsForDocument (hop j st)
          = <[fileOf (jdoc job) st := errors]> (lastCompileErrorsForDocument st)
          /\ validatingDocument (hop j st) = validatingDocument st
          /\ compiled (hop j st) = compiled st
      | Flag =>
          lastCompileErrorsForDocument (hop j st) = lastCompileErrorsForDocument st
          /\ validatingDocument (hop j st) = false
          /\ compiled (hop j st) = compiled st
      | _ =>
          lastCompileErrorsForDocument (hop j st) = lastCompileErrorsForDocument st
          /\ validatingDocument (hop j st) = validatingDocument st
          /\ compiled (hop j st) = compiled st
      end
  end.
Proof.
  unfold Validation.hop. destruct (findJob j st) as [job|]; [|reflexivity].
  destruct (jstage job) as [|[errors|]|[errors|]|[[errors lint]|]|]; try by split_and!.
  - destruct (lintFile_frame uriToFilePath processStr soliumValidate (jdoc job) st) as
      (_ & _ & _ & Hc & _ & Hv & _ & _ & _ & _ & _ & _ & _ & _ & Hcomp).
    by destruct (lintFile (jdoc job) st) as [[L|] st1].
  - destruct (chainSettled_frame j (validateFlagToFalse st)) as (_ & _ & _ & Hc & Hv & _ & Hcomp).
    by split_and!.
Qed.

(** X6. The cache is written by one reaction only: a turn of the event loop
    leaves the cache as it is, unless it is the first reaction of a chain
    whose compilation was fulfilled, which overwrites the entry of that
    document's path with the result. No turn deletes an entry. *)
Theorem cache_written_by_store_only e st :
  lastCompileErrorsForDocument (step e st) = lastCompileErrorsForDocument st
  \/ exists j job errors,
       e = Reaction j /\ findJob j st = Some job /\ jstage job = Store (Returned errors)
       /\ lastCompileErrorsForDocument (step e st)
          = <[fileOf (jdoc job) st := errors]> (lastCompileErrorsForDocument st).
Proof.
  destruct e as [|u text inWindow|document text inWindow|document| |k throws
                |s throws|ok throws|j o|j| |err data];
    try (left; apply step_quiet; intros; discriminate).
  - left. apply configuration_quiet_but_settings.
  - cbn [Validation.step]. pose proof (hop_effect j st) as H.
    destruct (findJob j st) as [job|] eqn:Hf; [|left; by rewrite H].
    destruct (jstage job) as [|[errors|]|[errors|]|[[errors lint]|]|] eqn:Hs;
      try (left; apply H).
    right. exists j, job, errors. split_and!; first [reflexivity | assumption | apply H].
Qed.


(** X8. The per-document flag, once set, is cleared by one turn only: the
    last reaction of a chain. In particular a timer that fires while compile
    checking is disabled leaves it set. *)
Theorem document_flag_cleared_by_chain_only e st :
  validatingDocument st = true ->
  validatingDocument (step e st) = false ->
  exists j job, e = Reaction j /\ findJob j st = Some job /\ jstage job = Flag.
Proof.
  intros Hv Hc.
  assert (Hq : forall st', quiet st st' -> validatingDocument st' = false -> False).
  { intros st' (_ & _ & Q & _) H. rewrite Q in H; [discriminate | exact Hv]. }
  destruct e as [|u text inWindow|document text inWindow|document| |k throws
                |s throws|ok throws|j o|j| |err data];
    try (exfalso; eapply Hq; [|exact Hc]; apply step_quiet; intros; discriminate).
  - exfalso. destruct (configuration_quiet_but_settings s throws st) as (_ & Q & _).
    cbn [Validation.step] in Hc. rewrite Q in Hc; [discriminate | exact Hv].
  - cbn [Validation.step] in Hc. pose proof (hop_effect j st) as H.
    destruct (findJob j st) as [job|] eqn:Hf; [|rewrite H in Hc; congruence].
    destruct (jstage job) as [|[errors|]|[errors|]|[[errors lint]|]|] eqn:Hs;
      try (destruct H as (_ & H & _); congruence).
    by exists j, job.
Qed.


Lemma lintAndSendDiagnostics_schedules_nothing document st :
  let st' := (lintAndSendDiagnostics document st).2 in
  timers st' = timers st /\ jobs st' = jobs st /\ compiled st' = compiled st
  /\ validatingDocument st' = validatingDocument st
  /\ validatingAllDocuments st' = validatingAllDocuments st
  /\ settings st' = settings st.
Proof.
  unfold Validation.lintAndSendDiagnostics.
  destruct (lintFile_frame uriToFilePath processStr soliumValidate document st) as
    (_ & _ & _ & _ & Hs & Hv & Hva & Ht & _ & Hj & _ & _ & _ & _ & Hcomp).
  by destruct (lintFile document st) as [[L|] st1].
Qed.

Lemma throttle_call_schedules_nothing inWindow document st :
  let st' := (throttle_call uriToFilePath processStr soliumValidate inWindow document st).2 in
  timers st' = timers st /\ jobs st' = jobs st /\ compiled st' = compiled st
  /\ validatingDocument st' = validatingDocument st
  /\ validatingAllDocuments st' = validatingAllDocuments st
  /\ settings st' = settings st.
Proof.
  unfold throttle_call. destruct inWindow;
    [by split_and! | apply lintAndSendDiagnostics_schedules_nothing].
Qed.

(** X9. While either flag is set, opening or changing a document starts
    nothing: no timer, no chain, no compiler call, and the flags stay as
    they are. The edit is linted, but its compilation is not scheduled. *)
Theorem edit_while_validating_schedules_nothing e st :
  validatingDocument st = true \/ validatingAllDocuments st = true ->
  (exists u text inWindow, e = DidOpen u text inWindow)
  \/ (exists document text inWindow, e = DidChange document text inWindow) ->
  let st' := step e st in
  timers st' = timers st /\ jobs st' = jobs st /\ compiled st' = compiled st
  /\ validatingDocument st' = validatingDocument st
  /\ validatingAllDocuments st' = validatingAllDocuments st.
Proof.
  intros Hflag He.
  assert (Hguard : negb (validatingDocument st) && negb (validatingAllDocuments st) = false).
  { destruct Hflag as [-> | ->]; [reflexivity | by rewrite andb_false_r]. }
  destruct He as [(u & text & inWindow & ->) | (document & text & inWindow & ->)];
    cbn [Validation.step].
  - unfold Validation.onDidChangeContent. cbn. rewrite Hguard.
    match goal with |- context [throttle_call _ _ _ inWindow ?d ?s] =>
      destruct (throttle_call_schedules_nothing inWindow d s) as (H1 & H2 & H3 & H4 & H5 & _) end.
    by split_and!.
  - destruct (bool_decide _); [|by split_and!].
    unfold Validation.onDidChangeContent. cbn. rewrite Hguard.
    match goal with |- context [throttle_call _ _ _ inWindow ?d ?s] =>
      destruct (throttle_call_schedules_nothing inWindow d s) as (H1 & H2 & H3 & H4 & H5 & _) end.
    by split_and!.
Qed.

(** X10. With compile checking disabled, an edit made while both flags are
    clear sets the per-document flag and arms a timer; when the timer fires
    nothing is compiled and the flag stays set. *)
Theorem disabled_timer_leaves_flag_set document text inWindow throws st :
  enabledAsYouTypeErrorCheck st = false ->
  validatingDocument st = false ->
  validatingAllDocuments st = false ->
  document ∈ opened st ->
  let st1 := step (DidChange document text inWindow) st in
  let st2 := step (TimerFires (length (timers st)) throws) st1 in
  timers st1 = timers st ++ [document]
  /\ validatingDocument st1 = true
  /\ timers st2 = timers st
  /\ validatingDocument st2 = true
  /\ jobs st2 = jobs st
  /\ compiled st2 = compiled st.
Proof.
  intros Hen Hv Hva Hin st1.
  assert (H1 : timers st1 = timers st ++ [document] /\ validatingDocument st1 = true
               /\ jobs st1 = jobs st /\ compiled st1 = compiled st
               /\ enabledAsYouTypeErrorCheck st1 = false).
  { subst st1. cbn [Validation.step]. rewrite bool_decide_eq_true_2 by exact Hin.
    unfold Validation.onDidChangeContent. cbn. rewrite Hv, Hva. cbn.
    match goal with |- context [throttle_call _ _ _ inWindow ?d ?s] =>
      destruct (throttle_call_schedules_nothing inWindow d s) as (T1 & T2 & T3 & T4 & _ & T6) end.
    unfold enabledAsYouTypeErrorCheck in *. rewrite T1, T2, T3, T4, T6. by split_and!. }
  destruct H1 as (Ht & Hv1 & Hj & Hc & Hen1). intros st2. subst st2.
  cbn [Validation.step]. rewrite Ht.
  rewrite lookup_app_r by lia. rewrite Nat.sub_diag. cbn [lookup list_lookup].
  unfold Validation.validateCompilation.
  change (enabledAsYouTypeErrorCheck (set_timers _ st1)) with (enabledAsYouTypeErrorCheck st1).
  rewrite Hen1. cbn.
  split_and!; try assumption; try reflexivity.
  clear. induction (timers st) as [|t ts IH]; cbn; [reflexivity | f_equal; exact IH].
Qed.

(** A fulfilled compile promise whose lint pass throws: the result is
    stored, the rejection skips the publish and reaches the last reaction. *)
Lemma settleAndRun_lint_throws j st job errors :
  findJob j st = Some job -> jstage job = Compiling ->
  (lintFile (jdoc job) st).1 = Thrown ->
  exists st3,
    settleAndRun j (Returned errors) st = chainSettled j (validateFlagToFalse st3)
    /\ lastCompileErrorsForDocument st3
       = <[fileOf (jdoc job) st := errors]> (lastCompileErrorsForDocument st)
    /\ sent st3 = sent st.
Proof.
  intros Hf Hs HL. unfold Validation.settleAndRun.
  rewrite (settle_at _ _ _ _ Hf Hs).
  pose proof (findJob_setStage j (Store (Returned errors)) st st job eq_refl Hf) as F0.
  rewrite (hop_at _ _ _ _ _ _ F0); cbn [jstage jdoc].
  set (st1 := Validation.storeCompileErrors _ _ _ _).
  assert (F1 := findJob_setStage j (Append (Returned errors)) _ st1 _ eq_refl F0).
  cbn [jid jdoc jstage] in F1.
  rewrite (hop_at _ _ _ _ _ _ F1); cbn [jstage jdoc].
  set (st1' := setStage j (Append (Returned errors)) st1) in *.
  assert (HL' : (lintFile (jdoc job) st1').1 = Thrown).
  { rewrite <- HL. by apply lintFile_ext. }
  destruct (lintFile_frame uriToFilePath processStr soliumValidate (jdoc job) st1') as
    (Hh & _ & _ & Hc & _ & _ & _ & _ & _ & Hj & _ & _ & _ & Hsent & _).
  destruct (lintFile (jdoc job) st1') as [r st2]; cbn [fst snd] in Hj;
    cbn in HL', Hh, Hc, Hsent. subst r.
  assert (F2 := findJob_setStage j (Send Thrown) st1' st2 _ Hj F1).
  cbn [jid jdoc jstage] in F2.
  rewrite (hop_at _ _ _ _ _ _ F2); cbn [jstage jdoc].
  assert (F3 := findJob_setStage j Flag _ (setStage j (Send Thrown) st2) _ eq_refl F2).
  cbn [jid jdoc jstage] in F3.
  rewrite (hop_at _ _ _ _ _ _ F3); cbn [jstage jdoc].
  eexists; split; [reflexivity|].
  clear F0 F1 F2 F3 Hj Hf HL. subst st1' st1.
  unfold Validation.fileOf, uriOf in *.
  destruct st, st2; cbn in *. subst. split; reflexivity.
Qed.

(** X11. When the lint pass of a chain throws (the file configuration is
    [null]), the compile result is in the cache but nothing is published,
    and the per-document flag is cleared all the same. *)
Theorem chain_with_throwing_lint j job errors st :
  findJob j st = Some job -> jstage job = Compiling ->
  (lintFile (jdoc job) st).1 = Thrown ->
  let st' := settleAndRun j (Returned errors) st in
  lastCompileErrorsForDocument st'
  = <[fileOf (jdoc job) st := errors]> (lastCompileErrorsForDocument st)
  /\ sent st' = sent st
  /\ validatingDocument st' = false
  /\ findJob j st' = None.
Proof.
  intros Hf Hs HL st'. subst st'.
  destruct (settleAndRun_lint_throws j st job errors Hf Hs HL) as (st3 & E & Hc & Hsent).
  rewrite E.
  destruct (chainSettled_frame j (validateFlagToFalse st3)) as (_ & _ & _ & Hc' & Hv & Hsent' & _).
  rewrite Hc', Hv, Hsent'. split_and!; [exact Hc | exact Hsent | reflexivity |].
  apply findJob_chainSettled.
Qed.

(** X12. Closing a document cancels nothing: its timers and chains stay, and
    when a running compilation of it is fulfilled afterwards, the chain
    publishes compile and lint diagnostics for the closed URI, after the
    empty list the close has published. *)
Theorem close_does_not_cancel_compilation document j job errors L st :
  document ∈ opened st ->
  findJob j st = Some job -> jstage job = Compiling -> jdoc job = document ->
  (lintFile document st).1 = Returned L ->
  let st1 := step (DidClose document) st in
  let st2 := settleAndRun j (Returned errors) st1 in
  timers st1 = timers st /\ jobs st1 = jobs st
  /\ sent st2
     = sent st ++ [{| diagnostics := []; p_uri := uriOf document st |};
                   {| diagnostics := default [] errors ++ L; p_uri := uriOf document st |}].
Proof.
  intros Hin Hf Hs Hd HL st1.
  assert (E1 : st1 = onDidClose document
                       (set_opened (List.filter (fun d => negb (Nat.eqb d document)) (opened st)) st)).
  { subst st1. cbn [Validation.step]. by rewrite bool_decide_eq_true_2. }
  intros st2. split; [by rewrite E1|]. split; [by rewrite E1|].
  assert (Hf1 : findJob j st1 = Some job) by (by rewrite E1).
  assert (HL1 : (lintFile (jdoc job) st1).1 = Returned L).
  { rewrite Hd, <- HL. apply lintFile_ext; by rewrite E1. }
  destruct (settleAndRun_fulfilled uriToFilePath processStr soliumValidate j st1 job errors L
              Hf1 Hs HL1) as (st3 & E & _ & Hsent).
  subst st2. rewrite E.
  destruct (chainSettled_frame j (validateFlagToFalse st3)) as (_ & _ & _ & _ & _ & Hsent' & _).
  rewrite Hsent'. change (sent (validateFlagToFalse st3)) with (sent st3).
  rewrite Hsent, mergeErrors_pair, Hd, E1. cbn. by rewrite <- app_assoc.
Qed.

End MorePipeline.

(** ** The rule configuration, continued *)

Lemma build_is_union statics c fileRules :
  get_rules (Solhint.fileConfig c) = Some fileRules ->
  Solhint.build statics c
  = Some (list_to_map (own_props fileRules)
            ∪ (list_to_map (own_props (Solhint.ideRules c)) ∪ statics)).
Proof. intros H. unfold Solhint.build. by rewrite H. Qed.

Lemma build_Some_inv statics c rules :
  Solhint.build statics c = Some rules ->
  exists fileRules, get_rules (Solhint.fileConfig c) = Some fileRules
    /\ rules = list_to_map (own_props fileRules)
                 ∪ (list_to_map (own_props (Solhint.ideRules c)) ∪ statics).
Proof.
  unfold Solhint.build. destruct (get_rules (Solhint.fileConfig c)) as [fileRules|]; [|done].
  intros [= <-]. by exists fileRules.
Qed.

(** X13. [build()] never removes a rule from the static [DEFAULT_RULES]
    object: every key it held before the call it holds after it. *)
Theorem build_never_removes_a_rule statics c rules k :
  Solhint.build statics c = Some rules ->
  is_Some (statics !! k) -> is_Some (rules !! k).
Proof.
  intros Hb [v Hv]. destruct (build_Some_inv _ _ _ Hb) as (fileRules & _ & ->).
  rewrite !lookup_union, Hv.
  destruct (list_to_map (own_props fileRules) !! k),
           (list_to_map (own_props (Solhint.ideRules c)) !! k); cbn; eauto.
Qed.

(** X14. Calling [build()] again with the configuration unchanged returns
    the same rules: the first call has already written both layers into the
    static object. *)
Theorem build_twice_same_rules statics c rules :
  Solhint.build statics c = Some rules ->
  Solhint.build rules c = Some rules.
Proof.
  intros Hb. destruct (build_Some_inv _ _ _ Hb) as (fileRules & Hf & ->).
  rewrite (build_is_union _ _ _ Hf). f_equal. apply map_eq. intros k.
  rewrite !lookup_union.
  destruct (list_to_map (own_props fileRules) !! k),
           (list_to_map (own_props (Solhint.ideRules c)) !! k), (statics !! k); reflexivity.
Qed.

(** X15. A configuration file whose content is the JSON value [null] is
    loaded without an exception, and from then on [build()] throws, so every
    [validate] throws, whatever IDE rules are set afterwards; the next
    [readFileConfig] ends this. *)
Theorem null_file_makes_validate_throw
    (JSON_parse : string -> option JsVal)
    (processStr : string -> gmap string JsVal -> list Solhint.EngineMessage)
    (data : string) (c : Solhint.ValidationConfig) :
  JSON_parse data = Some VNull ->
  let loaded := Solhint.onConfigLoaded JSON_parse false data c in
  loaded.1 = Returned tt
  /\ (forall rules statics filePath documentText,
        Solhint.validate processStr statics (Solhint.setIdeRules rules loaded.2)
          filePath documentText = None)
  /\ (forall statics filePath documentText,
        Solhint.validate processStr statics (Solhint.readFileConfig loaded.2)
          filePath documentText <> None).
Proof.
  intros H. unfold Solhint.onConfigLoaded. rewrite H. cbn. split_and!; try reflexivity.
  intros statics filePath documentText. discriminate.
Qed.

(** ** The synchronous server of [src/server.ts] *)

Section LegacyFacts.
Variable uriToFilePath : string -> string.
Variable JSON_parse : string -> option JsVal.
Variable processStr : string -> gmap string JsVal -> list Solhint.EngineMessage.
Variable soliumValidate : JsVal -> string -> string -> list Diagnostic.

Import LegacyServer.

Local Abbreviation validate_try :=
  (LegacyServer.validate_try uriToFilePath processStr soliumValidate).
Local Abbreviation validate := (LegacyServer.validate uriToFilePath processStr soliumValidate).
Local Abbreviation forEachValidate :=
  (LegacyServer.forEachValidate uriToFilePath processStr soliumValidate).
Local Abbreviation validateAllDocuments :=
  (LegacyServer.validateAllDocuments uriToFilePath processStr soliumValidate).
Local Abbreviation step :=
  (LegacyServer.step uriToFilePath JSON_parse processStr soliumValidate).
Local Abbreviation run :=
  (LegacyServer.run uriToFilePath JSON_parse processStr soliumValidate).

(** [validate] leaves the timers, the workspace flag, the settings and the
    documents alone, and ends with the per-document flag clear. *)
Lemma validate_frame compile document st :
  let st' := (validate compile document st).2 in
  validatingDocument st' = false
  /\ timers st' = timers st
  /\ validatingAllDocuments st' = validatingAllDocuments st
  /\ config st' = config st
  /\ opened st' = opened st
  /\ inits st' = inits st.
Proof.
  unfold LegacyServer.validate, LegacyServer.validate_try. cbn.
  destruct (linter st) as [l|]; cbn.
  - destruct (Validation.Linter_validate _ _ _ _ _ _) as [[L rules]|]; cbn; [|by split_and!].
    destruct (enabledAsYouTypeErrorCheck (config st)); cbn; [|by split_and!].
    destruct (compile _ _); by split_and!.
  - destruct (enabledAsYouTypeErrorCheck (config st)); cbn; [|by split_and!].
    destruct (compile _ _); by split_and!.
Qed.

Lemma forEachValidate_frame compile documents st :
  let st' := (forEachValidate compile documents st).2 in
  (validatingDocument st' = false \/ validatingDocument st' = validatingDocument st)
  /\ timers st' = timers st
  /\ validatingAllDocuments st' = validatingAllDocuments st
  /\ config st' = config st
  /\ opened st' = opened st
  /\ inits st' = inits st.
Proof.
  revert st. induction documents as [|d ds IH]; intros st; cbn; [by split_and!; auto|].
  destruct (validate_frame compile d st) as (V1 & V2 & V3 & V4 & V5 & V6).
  destruct (validate compile d st) as [[[]|] st1]; cbn [snd] in *.
  - destruct (IH st1) as (W1 & W2 & W3 & W4 & W5 & W6).
    split_and!; try congruence. destruct W1 as [W1|W1]; left; congruence.
  - split_and!; auto.
Qed.

Lemma validateAllDocuments_frame compile st :
  let st' := (validateAllDocuments compile st).2 in
  (validatingDocument st' = false \/ validatingDocument st' = validatingDocument st)
  /\ timers st' = timers st
  /\ (validatingAllDocuments st = false -> validatingAllDocuments st' = false)
  /\ inits st' = inits st.
Proof.
  unfold LegacyServer.validateAllDocuments.
  destruct (validatingAllDocuments st) eqn:E; [split_and!; auto; discriminate|].
  set (st0 := set_validatingAllDocuments true st).
  destruct (forEachValidate_frame compile (opened st0) st0) as (W1 & W2 & _ & _ & _ & W6).
  destruct (forEachValidate compile (opened st0) st0) as [r st1]; cbn [snd] in *.
  split_and!; auto.
Qed.

(** X16. The flags of the synchronous server cannot stay set: in every state
    the server reaches between two events the workspace flag is clear, and
    the per-document flag is set only while a timer is pending, whatever the
    compiler and the linter threw on the way. *)
Theorem sync_flags_never_stuck events :
  let st := run events initial in
  validatingAllDocuments st = false
  /\ (validatingDocument st = true -> timers st <> []).
Proof.
  cbv zeta. unfold LegacyServer.run.
  assert (H0 : validatingAllDocuments initial = false
               /\ (validatingDocument initial = true -> timers initial <> []))
    by (split; [reflexivity | discriminate]).
  revert H0. generalize initial. induction events as [|e events IH]; intros st Hinv; cbn;
    [exact Hinv|].
  apply IH. destruct Hinv as [Ha Hd].
  assert (Hcontent : forall d s0, validatingAllDocuments s0 = false ->
            (validatingDocument s0 = true -> timers s0 <> []) ->
            validatingAllDocuments (onDidChangeContent d s0) = false
            /\ (validatingDocument (onDidChangeContent d s0) = true ->
                timers (onDidChangeContent d s0) <> [])).
  { intros d s0 A D. unfold onDidChangeContent.
    destruct (negb (validatingDocument s0) && negb (validatingAllDocuments s0)); cbn.
    - split; [exact A|]. intros _ H. by apply app_eq_nil in H as [_ [=]].
    - by split. }
  destruct e as [|u text|document text|document|k compile|s compile|ok compile| |err data];
    cbn [LegacyServer.step].
  - unfold onInitialize. destruct (linter st); by split.
  - by apply Hcontent.
  - destruct (bool_decide _); [by apply Hcontent | by split].
  - destruct (bool_decide _); by split.
  - destruct (timers st !! k) as [document|]; [|by split].
    match goal with |- context [LegacyServer.validate _ _ _ compile document ?s0] =>
      destruct (validate_frame compile document s0) as (V1 & V2 & V3 & _) end.
    rewrite V1, V3. split; [exact Ha | discriminate].
  - unfold onDidChangeConfiguration, startValidation. cbn.
    destruct (Server.enabledAsYouTypeCompilationErrorCheck s); cbn; [by split|].
    match goal with |- context [LegacyServer.validateAllDocuments _ _ _ compile ?s0] =>
      destruct (validateAllDocuments_frame compile s0) as (V1 & V2 & V3 & _) end.
    split; [by apply V3|]. rewrite V2. destruct V1 as [V1|V1]; rewrite V1; [discriminate | exact Hd].
  - destruct (inits st) as [|n]; [by split|]. destruct ok; [|by split].
    destruct (validateAllDocuments_frame compile (set_inits n st)) as (V1 & V2 & V3 & _).
    split; [by apply V3|]. rewrite V2. destruct V1 as [V1|V1]; rewrite V1; [discriminate | exact Hd].
  - destruct (linter st) as [[c|rules]|]; by split.
  - destruct (linter st) as [[c|rules]|]; try by split.
    destruct (Solhint.pendingReads c); by split.
Qed.

(** X17. With a linter and compile checking enabled, [validate] publishes
    the lint diagnostics alone first; then, if the compiler returns, the lint
    diagnostics followed by the compile diagnostics; if the compiler throws,
    nothing more, and the exception goes on. Either way the per-document
    flag is clear afterwards. *)
Theorem sync_validate_publishes_lint_first compile document l L rules st :
  linter st = Some l ->
  Validation.Linter_validate processStr soliumValidate l (statics st)
    (uriToFilePath (uriOf document st)) (textOf document st) = Some (L, rules) ->
  enabledAsYouTypeErrorCheck (config st) = true ->
  let r := validate compile document st in
  let lintOnly := {| Validation.diagnostics := L; Validation.p_uri := uriOf document st |} in
  validatingDocument r.2 = false
  /\ match compile (uriToFilePath (uriOf document st)) (textOf document st) with
     | Returned C =>
         r.1 = Returned tt
         /\ sent r.2
            = sent st ++ [lintOnly;
                          {| Validation.diagnostics := L ++ C;
                             Validation.p_uri := uriOf document st |}]
     | Thrown => r.1 = Thrown /\ sent r.2 = sent st ++ [lintOnly]
     end.
Proof.
  intros Hl HL Hen. unfold LegacyServer.validate, LegacyServer.validate_try. cbn.
  rewrite Hl. cbn. unfold uriOf, textOf in *. cbn. rewrite HL. cbn. rewrite Hen.
  destruct (compile _ _) as [C|]; cbn; (split; [reflexivity|]); split; try reflexivity.
  by rewrite <- app_assoc.
Qed.

Lemma forEachValidate_app compile pre post st :
  forEachValidate compile (pre ++ post) st
  = match forEachValidate compile pre st with
    | (Returned _, st1) => forEachValidate compile post st1
    | (Thrown, st1) => (Thrown, st1)
    end.
Proof.
  revert st. induction pre as [|d pre IH]; intros st; cbn; [reflexivity|].
  destruct (validate compile d st) as [[[]|] st1]; [apply IH | reflexivity].
Qed.

(** X18. A whole-workspace validation stops at the first document whose
    [validate] throws: the documents after it are not validated, the
    exception goes on to the caller, and the workspace flag is cleared. *)
Theorem sync_pass_stops_at_first_throw compile pre document post st st1 :
  validatingAllDocuments st = false ->
  opened st = pre ++ document :: post ->
  forEachValidate compile pre (set_validatingAllDocuments true st) = (Returned tt, st1) ->
  (validate compile document st1).1 = Thrown ->
  validateAllDocuments compile st
  = (Thrown, set_validatingAllDocuments false (validate compile document st1).2).
Proof.
  intros Hv Ho Hpre Hd. unfold LegacyServer.validateAllDocuments. rewrite Hv.
  change (opened (set_validatingAllDocuments true st)) with (opened st). rewrite Ho.
  rewrite forEachValidate_app, Hpre. cbn.
  destruct (validate compile document st1) as [[[]|] st2]; cbn in *; [discriminate | reflexivity].
Qed.

End LegacyFacts.

(** ** The completion handler *)

Lemma charAt_nat line (n : nat) : OnCompletion.charAt line (Z.of_nat n) = String.get n line.
Proof.
  unfold OnCompletion.charAt. destruct (Z.ltb_spec (Z.of_nat n) 0) as [H|H]; [lia|].
  by rewrite Nat2Z.id.
Qed.

Lemma scanLoop_step fuel line (n : nat) :
  OnCompletion.scanLoop (S fuel) line
    {| OnCompletion.i := Z.of_nat n; OnCompletion.start := 0;
       OnCompletion.triggeredByDot := false |}
  = if bool_decide (String.get n line = Some OnCompletion.dot)
    then OnCompletion.scanLoop fuel line
           {| OnCompletion.i := -1; OnCompletion.start := Z.of_nat n;
              OnCompletion.triggeredByDot := true |}
    else OnCompletion.scanLoop fuel line
           {| OnCompletion.i := Z.of_nat n - 1; OnCompletion.start := 0;
              OnCompletion.triggeredByDot := false |}.
Proof.
  cbn [OnCompletion.scanLoop OnCompletion.i].
  destruct (Z.leb_spec 0 (Z.of_nat n)) as [_|H]; [|lia].
  unfold OnCompletion.scanBody.
  replace (bool_decide (OnCompletion.lineAtIndexedNumber = Some " ")) with false by reflexivity.
  cbv iota. cbn [OnCompletion.i OnCompletion.start OnCompletion.triggeredByDot].
  rewrite charAt_nat.
  destruct (bool_decide (String.get n line = Some OnCompletion.dot)); reflexivity.
Qed.

(** The loop, from a start where no dot was seen yet, against [lastDot]. *)
Lemma scanLoop_lastDot line (n : nat) :
  OnCompletion.scanLoop (S n) line
    {| OnCompletion.i := Z.of_nat n; OnCompletion.start := 0;
       OnCompletion.triggeredByDot := false |}
  = match lastDot line n with
    | Some k => {| OnCompletion.i := -1; OnCompletion.start := Z.of_nat k;
                   OnCompletion.triggeredByDot := true |}
    | None => {| OnCompletion.i := -1; OnCompletion.start := 0;
                 OnCompletion.triggeredByDot := false |}
    end.
Proof.
  induction n as [|n IH]; rewrite scanLoop_step; cbn [lastDot];
    destruct (bool_decide _); try reflexivity.
  replace (Z.of_nat (S n) - 1)%Z with (Z.of_nat n) by lia. exact IH.
Qed.

Lemma lastDot_Some line n k :
  lastDot line n = Some k ->
  (k <= n)%nat /\ String.get k line = Some (OnCompletion.dot)
  /\ forall m, (k < m <= n)%nat -> String.get m line <> Some (OnCompletion.dot).
Proof.
  induction n as [|n IH]; cbn [lastDot]; case_bool_decide as E.
  - intros [= <-]. split_and!; [lia | exact E | intros m Hm; lia].
  - discriminate.
  - intros [= <-]. split_and!; [lia | exact E | intros m Hm; lia].
  - intros H. destruct (IH H) as (H1 & H2 & H3). split_and!; [lia | exact H2|].
    intros m Hm. destruct (decide (m = S n)) as [->|Hne]; [exact E | apply H3; lia].
Qed.

Lemma lastDot_None line n :
  lastDot line n = None ->
  forall m, (m <= n)%nat -> String.get m line <> Some (OnCompletion.dot).
Proof.
  induction n as [|n IH]; cbn [lastDot]; case_bool_decide as E; try discriminate.
  - intros _ m Hm. by replace m with 0%nat by lia.
  - intros H m Hm. destruct (decide (m = S n)) as [->|Hne]; [exact E | apply IH; [exact H | lia]].
Qed.

(** X19. The scan of the line stops at the last dot at or before the cursor:
    [triggeredByDot] says whether the line has a dot there, and then [start]
    is the index of the last one; otherwise [start] is 0. A space does not
    end the scan. *)
Theorem scan_finds_last_dot (line : string) (character : nat) :
  let s := OnCompletion.scan line character in
  let dot := OnCompletion.dot in
  (OnCompletion.triggeredByDot s = true
   <-> exists k, (k <= character)%nat /\ String.get k line = Some dot)
  /\ (OnCompletion.triggeredByDot s = true ->
      exists k, OnCompletion.start s = Z.of_nat k /\ (k <= character)%nat
        /\ String.get k line = Some dot
        /\ forall m, (k < m <= character)%nat -> String.get m line <> Some dot)
  /\ (OnCompletion.triggeredByDot s = false -> OnCompletion.start s = 0%Z).
Proof.
  cbv zeta. unfold OnCompletion.scan. rewrite scanLoop_lastDot.
  destruct (lastDot line character) as [k|] eqn:E; cbn.
  - destruct (lastDot_Some _ _ _ E) as (H1 & H2 & H3). split_and!.
    + split; [intros _; by exists k | reflexivity].
    + intros _. by exists k.
    + discriminate.
  - pose proof (lastDot_None _ _ E) as H. split_and!.
    + split; [discriminate | intros (k & Hk & Hd); by destruct (H k Hk)].
    + discriminate.
    + reflexivity.
Qed.

(** X20. What the handler answers. Without the document or the line, or when
    a collaborator throws, it answers the four global lists alone. When the
    cursor follows a dot on its line it answers the contextual items only
    (none for [null]): the global lists the [finally] appends are not in the
    value already returned. Otherwise it answers the items of the completion
    service followed by the global lists. *)
Theorem completion_answer (Item : Type) (uriToFilePath : string -> string)
    (contextual : string -> Z -> Completion (option (list Item)))
    (service : string -> string -> Completion (list Item))
    (types units functions variables : list Item)
    (document : option string) (u : string) (line character : nat) :
  let answer := OnCompletion.onCompletion Item uriToFilePath contextual service
                  types units functions variables document u line character in
  let globals := types ++ units ++ functions ++ variables in
  match document with
  | None => answer = globals
  | Some text =>
      match OnCompletion.splitLines [] text !! line with
      | None => answer = globals
      | Some theLine =>
          match lastDot theLine character with
          | Some k =>
              match contextual theLine (Z.of_nat k) with
              | Returned (Some items) => answer = items
              | Returned None => answer = []
              | Thrown => answer = globals
              end
          | None =>
              match service text (uriToFilePath u) with
              | Returned items => answer = items ++ globals
              | Thrown => answer = globals
              end
          end
      end
  end.
Proof.
  cbv zeta. unfold OnCompletion.onCompletion, OnCompletion.tryBlock.
  destruct document as [text|]; [|reflexivity].
  destruct (OnCompletion.splitLines [] text !! line) as [theLine|]; [|reflexivity].
  unfold OnCompletion.scan. rewrite scanLoop_lastDot.
  destruct (lastDot theLine character) as [k|]; cbn.
  - by destruct (contextual theLine (Z.of_nat k)) as [[items|]|].
  - by destruct (service text (uriToFilePath u)) as [items|].
Qed.

(** ** These properties in the sample world *)



Lemma document_flag_cleared_by_chain_only_witness :
  let st := Sample.run Sample2.lastReactionDue Validation.initial in
  Validation.validatingDocument st = true
  /\ Validation.validatingDocument (Validation.step Sample.uriToFilePath Sample.JSON_parse Sample.processStr Sample.soliumValidate (Validation.Reaction 0) st) = false
  /\ exists j job,
       Validation.Reaction 0 = Validation.Reaction j
       /\ Validation.findJob j st = Some job
       /\ Validation.jstage job = Validation.Flag.
Proof.
  cbv zeta.
  assert (H1 : Validation.validatingDocument
                 (Sample.run Sample2.lastReactionDue Validation.initial) = true)
    by (vm_compute; reflexivity).
  assert (H2 : Validation.validatingDocument
                 (Validation.step Sample.uriToFilePath Sample.JSON_parse Sample.processStr Sample.soliumValidate (Validation.Reaction 0)
                    (Sample.run Sample2.lastReactionDue Validation.initial)) = false)
    by (vm_compute; reflexivity).
  split; [exact H1|]. split; [exact H2|].
  exact (document_flag_cleared_by_chain_only Sample.uriToFilePath Sample.JSON_parse
           Sample.processStr Sample.soliumValidate _ _ H1 H2).
Defined.

Lemma edit_while_validating_schedules_nothing_witness :
  let st := Sample.run Sample.passStarted Validation.initial in
  let e := Validation.DidChange 0 "contract A { uint x; }" false in
  (Validation.validatingDocument st = true \/ Validation.validatingAllDocuments st = true)
  /\ Validation.timers (Validation.step Sample.uriToFilePath Sample.JSON_parse Sample.processStr Sample.soliumValidate e st) = Validation.timers st
  /\ Validation.jobs (Validation.step Sample.uriToFilePath Sample.JSON_parse Sample.processStr Sample.soliumValidate e st) = Validation.jobs st.
Proof.
  cbv zeta.
  assert (H : Validation.validatingDocument (Sample.run Sample.passStarted Validation.initial) = true
              \/ Validation.validatingAllDocuments
                   (Sample.run Sample.passStarted Validation.initial) = true)
    by (right; vm_compute; reflexivity).
  split; [exact H|].
  destruct (edit_while_validating_schedules_nothing Sample.uriToFilePath Sample.JSON_parse
              Sample.processStr Sample.soliumValidate
              (Validation.DidChange 0 "contract A { uint x; }" false) _ H
              (or_intror (ex_intro _ 0%nat (ex_intro _ _ (ex_intro _ false eq_refl)))))
    as (H1 & H2 & _).
  split; [exact H1 | exact H2].
Defined.

Lemma disabled_timer_leaves_flag_set_witness :
  let st := Sample.run Sample2.thenDisabled Validation.initial in
  let st1 := Validation.step Sample.uriToFilePath Sample.JSON_parse Sample.processStr Sample.soliumValidate (Validation.DidChange 0 "contract A { uint x; }" false) st in
  let st2 := Validation.step Sample.uriToFilePath Sample.JSON_parse Sample.processStr Sample.soliumValidate (Validation.TimerFires (length (Validation.timers st)) false) st1 in
  Validation.enabledAsYouTypeErrorCheck st = false
  /\ Validation.validatingDocument st = false
  /\ Validation.validatingAllDocuments st = false
  /\ 0%nat ∈ Validation.opened st
  /\ Validation.validatingDocument st2 = true
  /\ Validation.timers st2 = Validation.timers st.
Proof.
  cbv zeta.
  assert (H1 : Validation.enabledAsYouTypeErrorCheck
                 (Sample.run Sample2.thenDisabled Validation.initial) = false)
    by (vm_compute; reflexivity).
  assert (H2 : Validation.validatingDocument
                 (Sample.run Sample2.thenDisabled Validation.initial) = false)
    by (vm_compute; reflexivity).
  assert (H3 : Validation.validatingAllDocuments
                 (Sample.run Sample2.thenDisabled Validation.initial) = false)
    by (vm_compute; reflexivity).
  assert (H4 : 0%nat ∈ Validation.opened (Sample.run Sample2.thenDisabled Validation.initial))
    by (vm_compute; left).
  split_and!; try assumption;
    destruct (disabled_timer_leaves_flag_set Sample.uriToFilePath Sample.JSON_parse
                Sample.processStr Sample.soliumValidate 0%nat "contract A { uint x; }" false false
                _ H1 H2 H3 H4) as (_ & _ & T & V & _); assumption.
Defined.

Lemma chain_with_throwing_lint_witness :
  let st := Sample2.run Sample2.nullConfigCompiling Validation.initial in
  let job := {| Validation.jid := 0; Validation.jdoc := 0; Validation.jstage := Validation.Compiling |} in
  let st' := Validation.settleAndRun Sample.uriToFilePath Sample.processStr Sample.soliumValidate
               0 (Returned (Some [Sample.compileDiagnostic])) st in
  Validation.findJob 0 st = Some job
  /\ Validation.jstage job = Validation.Compiling
  /\ (Validation.lintFile Sample.uriToFilePath Sample.processStr Sample.soliumValidate
        (Validation.jdoc job) st).1 = Thrown
  /\ Validation.sent st' = Validation.sent st
  /\ Validation.validatingDocument st' = false.
Proof.
  cbv zeta.
  assert (H1 : Validation.findJob 0 (Sample2.run Sample2.nullConfigCompiling Validation.initial)
               = Some {| Validation.jid := 0; Validation.jdoc := 0;
                         Validation.jstage := Validation.Compiling |})
    by (vm_compute; reflexivity).
  assert (H3 : (Validation.lintFile Sample.uriToFilePath Sample.processStr Sample.soliumValidate
                  0 (Sample2.run Sample2.nullConfigCompiling Validation.initial)).1 = Thrown)
    by (vm_compute; reflexivity).
  split; [exact H1|]. split; [reflexivity|]. split; [exact H3|].
  destruct (chain_with_throwing_lint Sample.uriToFilePath Sample.processStr Sample.soliumValidate
              0%nat _ (Some [Sample.compileDiagnostic]) _ H1 eq_refl H3) as (_ & S & V & _).
  split; [exact S | exact V].
Defined.

Lemma close_does_not_cancel_compilation_witness :
  let st := Sample.run Sample2.firstCompiling Validation.initial in
  let job := {| Validation.jid := 0; Validation.jdoc := 0; Validation.jstage := Validation.Compiling |} in
  let st2 := Validation.settleAndRun Sample.uriToFilePath Sample.processStr Sample.soliumValidate
               0 (Returned (Some [Sample.compileDiagnostic]))
               (Validation.step Sample.uriToFilePath Sample.JSON_parse Sample.processStr Sample.soliumValidate (Validation.DidClose 0) st) in
  0%nat ∈ Validation.opened st
  /\ Validation.findJob 0 st = Some job
  /\ (Validation.lintFile Sample.uriToFilePath Sample.processStr Sample.soliumValidate 0 st).1
     = Returned [Sample.lintDiagnostic]
  /\ Validation.sent st2
     = Validation.sent st
       ++ [{| Validation.diagnostics := []; Validation.p_uri := Validation.uriOf 0 st |};
           {| Validation.diagnostics := [Sample.compileDiagnostic] ++ [Sample.lintDiagnostic];
              Validation.p_uri := Validation.uriOf 0 st |}].
Proof.
  cbv zeta.
  assert (H0 : 0%nat ∈ Validation.opened (Sample.run Sample2.firstCompiling Validation.initial))
    by (vm_compute; left).
  assert (H1 : Validation.findJob 0 (Sample.run Sample2.firstCompiling Validation.initial)
               = Some {| Validation.jid := 0; Validation.jdoc := 0;
                         Validation.jstage := Validation.Compiling |})
    by (vm_compute; reflexivity).
  assert (H3 : (Validation.lintFile Sample.uriToFilePath Sample.processStr Sample.soliumValidate
                  0 (Sample.run Sample2.firstCompiling Validation.initial)).1
               = Returned [Sample.lintDiagnostic])
    by (vm_compute; reflexivity).
  split; [exact H0|]. split; [exact H1|]. split; [exact H3|].
  exact (proj2 (proj2 (close_does_not_cancel_compilation Sample.uriToFilePath Sample.JSON_parse
           Sample.processStr Sample.soliumValidate 0%nat 0%nat _
           (Some [Sample.compileDiagnostic]) [Sample.lintDiagnostic] _
           H0 H1 eq_refl eq_refl H3))).
Defined.

Lemma build_never_removes_a_rule_witness :
  let c := Solhint.setIdeRules (VObj [("a", VBool true)]) (Solhint.newValidationConfig VNull) in
  let rules := <["a" := VBool true]> Solhint.DEFAULT_RULES in
  Solhint.build Solhint.DEFAULT_RULES c = Some rules
  /\ is_Some (Solhint.DEFAULT_RULES !! "func-visibility")
  /\ is_Some (rules !! "func-visibility").
Proof.
  cbv zeta.
  assert (H1 : Solhint.build Solhint.DEFAULT_RULES
                 (Solhint.setIdeRules (VObj [("a", VBool true)]) (Solhint.newValidationConfig VNull))
               = Some (<["a" := VBool true]> Solhint.DEFAULT_RULES))
    by (vm_compute; reflexivity).
  assert (H2 : is_Some (Solhint.DEFAULT_RULES !! "func-visibility")) by (eexists; reflexivity).
  split; [exact H1|]. split; [exact H2|].
  exact (build_never_removes_a_rule _ _ _ _ H1 H2).
Defined.

Lemma build_twice_same_rules_witness :
  let c := Solhint.setIdeRules (VObj [("a", VBool true)]) (Solhint.newValidationConfig VNull) in
  let rules := <["a" := VBool true]> Solhint.DEFAULT_RULES in
  Solhint.build Solhint.DEFAULT_RULES c = Some rules
  /\ Solhint.build rules c = Some rules.
Proof.
  cbv zeta.
  assert (H1 : Solhint.build Solhint.DEFAULT_RULES
                 (Solhint.setIdeRules (VObj [("a", VBool true)]) (Solhint.newValidationConfig VNull))
               = Some (<["a" := VBool true]> Solhint.DEFAULT_RULES))
    by (vm_compute; reflexivity).
  split; [exact H1|].
  exact (build_twice_same_rules _ _ _ H1).
Defined.

Lemma null_file_makes_validate_throw_witness :
  let c := Solhint.newValidationConfig VNull in
  let loaded := Solhint.onConfigLoaded Sample2.JSON_parse false "null" c in
  Sample2.JSON_parse "null" = Some VNull
  /\ loaded.1 = Returned tt
  /\ Solhint.validate Sample.processStr Solhint.DEFAULT_RULES
       (Solhint.setIdeRules (VObj []) loaded.2) "/a.sol" "contract A { }" = None.
Proof.
  cbv zeta. split; [reflexivity|].
  destruct (null_file_makes_validate_throw Sample2.JSON_parse Sample.processStr "null"
              (Solhint.newValidationConfig VNull) eq_refl) as (H1 & H2 & _).
  split; [exact H1 | apply H2].
Defined.

Lemma sync_validate_publishes_lint_first_witness :
  let st := Sample2.legacyRun Sample2.legacyTwoOpen LegacyServer.initial in
  let r := LegacyServer.validate Sample.uriToFilePath Sample.processStr Sample.soliumValidate
             Sample2.compileOk 0 st in
  LegacyServer.enabledAsYouTypeErrorCheck (LegacyServer.config st) = true
  /\ r.1 = Returned tt
  /\ LegacyServer.sent r.2
     = LegacyServer.sent st
       ++ [{| Validation.diagnostics := [Sample.lintDiagnostic];
              Validation.p_uri := LegacyServer.uriOf 0 st |};
           {| Validation.diagnostics := [Sample.lintDiagnostic] ++ [Sample.compileDiagnostic];
              Validation.p_uri := LegacyServer.uriOf 0 st |}].
Proof.
  cbv zeta. split; [vm_compute; reflexivity|].
  refine (proj2 (sync_validate_publishes_lint_first Sample.uriToFilePath Sample.processStr
            Sample.soliumValidate Sample2.compileOk 0%nat
            (SolhintService (Solhint.setIdeRules (VObj []) (Solhint.newValidationConfig (VObj []))))
            [Sample.lintDiagnostic] Solhint.DEFAULT_RULES
            (Sample2.legacyRun Sample2.legacyTwoOpen LegacyServer.initial) _ _ _));
    vm_compute; reflexivity.
Defined.

Lemma sync_pass_stops_at_first_throw_witness :
  let st := Sample2.legacyRun Sample2.legacyTwoOpen LegacyServer.initial in
  let st1 := LegacyServer.set_validatingAllDocuments true st in
  let validate := LegacyServer.validate Sample.uriToFilePath Sample.processStr Sample.soliumValidate in
  LegacyServer.validatingAllDocuments st = false
  /\ LegacyServer.opened st = [] ++ 0%nat :: [1%nat]
  /\ (validate Sample2.compileThrows 0%nat st1).1 = Thrown
  /\ LegacyServer.validateAllDocuments Sample.uriToFilePath Sample.processStr Sample.soliumValidate
       Sample2.compileThrows st
     = (Thrown, LegacyServer.set_validatingAllDocuments false
                  (validate Sample2.compileThrows 0%nat st1).2).
Proof.
  cbv zeta.
  assert (H1 : LegacyServer.validatingAllDocuments
                 (Sample2.legacyRun Sample2.legacyTwoOpen LegacyServer.initial) = false)
    by (vm_compute; reflexivity).
  assert (H2 : LegacyServer.opened (Sample2.legacyRun Sample2.legacyTwoOpen LegacyServer.initial)
               = [] ++ 0%nat :: [1%nat])
    by (vm_compute; reflexivity).
  assert (H3 : (LegacyServer.validate Sample.uriToFilePath Sample.processStr Sample.soliumValidate
                  Sample2.compileThrows 0%nat
                  (LegacyServer.set_validatingAllDocuments true
                     (Sample2.legacyRun Sample2.legacyTwoOpen LegacyServer.initial))).1 = Thrown)
    by (vm_compute; reflexivity).
  split; [exact H1|]. split; [exact H2|]. split; [exact H3|].
  exact (sync_pass_stops_at_first_throw Sample.uriToFilePath Sample.processStr Sample.soliumValidate
           Sample2.compileThrows [] 0%nat [1%nat] _ _ H1 H2 eq_refl H3).
Defined.

(** ** Two more facts *)

Lemma is_name_solhint_not_solium x :
  is_name x "solhint" = true -> is_name x "solium" = false.
Proof.
  destruct x as [b|s]; cbn; [discriminate|].
  intros H. apply String.eqb_eq in H. by subst s.
Qed.

(** X21. The IDE rules the legacy server hands to the linter it selects: a
    solium linter gets [soliumRules] when that is set and
    [linterDefaultRules] otherwise; a solhint linter gets
    [linterDefaultRules] (or [{}]), never [soliumRules], and starts with
    the file layer reset. *)
Theorem legacy_rules_follow_selection (s : Server.SoliditySettings) :
  match Server.configuredLinter s with
  | Some (SoliumService rules) =>
      rules = (if truthy (Server.soliumRules s) then Server.soliumRules s
               else Server.linterDefaultRules s)
  | Some (SolhintService c) =>
      Solhint.ideRules c
      = (if truthy (Server.linterDefaultRules s) then Server.linterDefaultRules s else VObj [])
      /\ Solhint.fileConfig c = Solhint.EMPTY_CONFIG
  | None => variantNamed (Server.linterName s) = NoLinter
  end.
Proof.
  unfold Server.configuredLinter, Server.linterRules, switchLinter, variantNamed.
  destruct (is_name (Server.linterName s) "solhint") eqn:E1; cbn.
  - rewrite (is_name_solhint_not_solium _ E1). by split.
  - destruct (is_name (Server.linterName s) "solium"); reflexivity.
Qed.

(** X22. A timer that fires while compile checking is enabled starts a
    compilation whatever the flags and the running chains are:
    [validateCompilation] checks neither flag, so a chain for a document can
    be started while another chain for it, or a whole-workspace pass, is
    running. *)
Theorem firing_timer_starts_chain_whatever_the_flags
    (uriToFilePath : string -> string) (JSON_parse : string -> option JsVal)
    (processStr : string -> gmap string JsVal -> list Solhint.EngineMessage)
    (soliumValidate : JsVal -> string -> string -> list Diagnostic)
    (k document : nat) (st : Validation.State) :
  Validation.timers st !! k = Some document ->
  Validation.enabledAsYouTypeErrorCheck st = true ->
  let st' := Validation.step uriToFilePath JSON_parse processStr soliumValidate
               (Validation.TimerFires k false) st in
  Validation.jobs st'
  = Validation.jobs st
    ++ [{| Validation.jid := Validation.nextJob st; Validation.jdoc := document;
           Validation.jstage := Validation.Compiling |}]
  /\ Validation.compiled st'
     = Validation.compiled st
       ++ [(Validation.fileOf uriToFilePath document st, Validation.textOf document st)]
  /\ Validation.joins st' = Validation.joins st
  /\ Validation.validatingAllDocuments st' = Validation.validatingAllDocuments st.
Proof.
  intros Ht Hen. cbn [Validation.step]. rewrite Ht.
  unfold Validation.validateCompilation, Validation.compileFile.
  change (Validation.enabledAsYouTypeErrorCheck (Validation.set_timers _ st))
    with (Validation.enabledAsYouTypeErrorCheck st).
  rewrite Hen. cbn. by split_and!.
Qed.

Lemma firing_timer_starts_chain_whatever_the_flags_witness :
  let st := Validation.run Sample.uriToFilePath Sample.JSON_parse Sample.processStr
              Sample.soliumValidate
              [ Validation.DidOpen "file:///a.sol" "contract A { }" false;
                Validation.DidChangeConfiguration Sample.settings Sample.never;
                Validation.CompilerInitialised true Sample.never ] Validation.initial in
  let st' := Validation.step Sample.uriToFilePath Sample.JSON_parse Sample.processStr
               Sample.soliumValidate (Validation.TimerFires 0 false) st in
  Validation.timers st !! 0%nat = Some 0%nat
  /\ Validation.enabledAsYouTypeErrorCheck st = true
  /\ Validation.validatingAllDocuments st = true
  /\ map Validation.jdoc (Validation.jobs st) = [0%nat]
  /\ Validation.jobs st'
     = Validation.jobs st
       ++ [{| Validation.jid := Validation.nextJob st; Validation.jdoc := 0;
              Validation.jstage := Validation.Compiling |}].
Proof.
  cbv zeta.
  match goal with |- ?A /\ ?B /\ _ =>
    assert (H1 : A) by (vm_compute; reflexivity);
    assert (H2 : B) by (vm_compute; reflexivity) end.
  split; [exact H1|]. split; [exact H2|].
  split; [vm_compute; reflexivity|]. split; [vm_compute; reflexivity|].
  exact (proj1 (firing_timer_starts_chain_whatever_the_flags Sample.uriToFilePath
                  Sample.JSON_parse Sample.processStr Sample.soliumValidate 0%nat 0%nat _ H1 H2)).
Defined.
